(** * Super Trunfo: city cards, derived metrics and two-attribute comparison

    Shallow embedding of [super_trunfo.c].

    - C [double] is IEEE-754 binary64, i.e. Rocq's primitive [float]; the
      comparison [x > 0.0] is [0 <? x] and arithmetic is [+], [*], [/] of
      [float_scope], so NaN, infinities and signed zeros behave as in C.
    - [unsigned long] is a [Z] in [0, 2^64) (LP64) and [int] a [Z] in
      [-2^31, 2^31); the casts [(double)n] round to nearest even.
    - [char] buffers are [string]s; attribute identifiers are the [int]
      values the code switches on, kept as [Z].
    - Standard input is the list of its lines; a reader is a function from the
      remaining lines to its result and the lines left, and [None] stands for
      a reader that never returns (its retry loop spins at end of input). *)

From Stdlib Require Import ZArith List String Ascii Bool Lia Floats.
Import ListNotations.

Open Scope Z_scope.

(** ** Machine numbers *)

Module Num.

Definition ULONG_MODULUS : Z := 2 ^ 64.
Definition INT_MODULUS : Z := 2 ^ 32.
Definition INT_MIN : Z := - 2 ^ 31.
Definition INT_MAX : Z := 2 ^ 31 - 1.

(** Value stored in an [unsigned long] object. *)
Definition to_ulong (z : Z) : Z := z mod ULONG_MODULUS.

(** Value stored in an [int] object (two's complement). *)
Definition to_int (z : Z) : Z := (z - INT_MIN) mod INT_MODULUS + INT_MIN.

(** The cast [(double)n] of an integer: nearest binary64, ties to even. *)
Definition double_of_Z (z : Z) : float :=
  SF2Prim (binary_normalize prec emax z 0 false).

(** C's [x > y] on doubles. *)
Definition dgt (x y : float) : bool := (y <? x)%float.

End Num.

Import Num.

(** ** Data model *)

Record FichaCidade : Type := mkFicha {
  estado : ascii;
  codigo : string;
  cidade : string;
  populacao : Z;              (* unsigned long *)
  area_km2 : float;
  pib_bilhoes : float;
  pontos_turisticos : Z;      (* int *)
  densidade : float;
  pib_per_capita : float
}.

(** [FichaCidade c = {0}]. *)
Definition ficha_zero : FichaCidade :=
  mkFicha Ascii.zero EmptyString EmptyString 0 0%float 0%float 0 0%float 0%float.

(** [enum Atributo]. *)
Definition ATR_POPULACAO : Z := 1.
Definition ATR_AREA : Z := 2.
Definition ATR_PIB : Z := 3.
Definition ATR_TURISMO : Z := 4.
Definition ATR_DENSIDADE : Z := 5.
Definition ATR_PIB_PC : Z := 6.

(** Membership in the six-value enumeration. *)
Definition atributo_valido (atr : Z) : bool := (1 <=? atr) && (atr <=? 6).

Definition nome_atributo (atr : Z) : string :=
  if atr =? ATR_POPULACAO then "População"
  else if atr =? ATR_AREA then "Área"
  else if atr =? ATR_PIB then "PIB"
  else if atr =? ATR_TURISMO then "Pontos Turísticos"
  else if atr =? ATR_DENSIDADE then "Densidade Demográfica"
  else if atr =? ATR_PIB_PC then "PIB per Capita"
  else "Desconhecido".

(** ** Derived metrics *)

Definition calcular_metricas (f : FichaCidade) : FichaCidade :=
  let d :=
    if dgt (area_km2 f) 0
    then (double_of_Z (populacao f) / area_km2 f)%float
    else 0%float in
  let pc :=
    if 0 <? populacao f
    then (pib_bilhoes f * 1e9 / double_of_Z (populacao f))%float
    else 0%float in
  mkFicha (estado f) (codigo f) (cidade f) (populacao f) (area_km2 f)
          (pib_bilhoes f) (pontos_turisticos f) d pc.

(** The function receives a pointer; on [NULL] it returns at once and nothing
    is written. *)
Definition calcular_metricas_ptr (p : option FichaCidade) : option FichaCidade :=
  match p with
  | None => None
  | Some f => Some (calcular_metricas f)
  end.

(** ** Base value and score of an attribute *)

Definition valor_atributo_base (f : FichaCidade) (atr : Z) : float :=
  if atr =? ATR_POPULACAO then double_of_Z (populacao f)
  else if atr =? ATR_AREA then area_km2 f
  else if atr =? ATR_PIB then pib_bilhoes f
  else if atr =? ATR_TURISMO then double_of_Z (pontos_turisticos f)
  else if atr =? ATR_DENSIDADE then densidade f
  else if atr =? ATR_PIB_PC then pib_per_capita f
  else 0%float.

Definition pontuar_atributo (f : FichaCidade) (atr : Z) : float :=
  let v := valor_atributo_base f atr in
  if atr =? ATR_DENSIDADE
  then (if dgt v 0 then (1 / v)%float else 0%float)
  else v.

(** ** Comparison of two cards on two attributes (the tail of [main]) *)

(** Which of the three strings the final conditional expression selects:
    [c1.cidade], [c2.cidade] or the literal. *)
Inductive Desfecho : Type :=
| VenceCarta1
| VenceCarta2
| Empate.

(** The outcome seen from the other side of the table. *)
Definition espelhar (d : Desfecho) : Desfecho :=
  match d with
  | VenceCarta1 => VenceCarta2
  | VenceCarta2 => VenceCarta1
  | Empate => Empate
  end.

Record Resultado : Type := mkResultado {
  c1_v1_base : float;
  c2_v1_base : float;
  c1_v2_base : float;
  c2_v2_base : float;
  c1_score : float;
  c2_score : float;
  desfecho : Desfecho
}.

Definition decidir (s1 s2 : float) : Desfecho :=
  if dgt s1 s2 then VenceCarta1
  else if dgt s2 s1 then VenceCarta2
  else Empate.

Definition comparar (c1 c2 : FichaCidade) (atr1 atr2 : Z) : Resultado :=
  let s1 := (pontuar_atributo c1 atr1 + pontuar_atributo c1 atr2)%float in
  let s2 := (pontuar_atributo c2 atr1 + pontuar_atributo c2 atr2)%float in
  mkResultado (valor_atributo_base c1 atr1) (valor_atributo_base c2 atr1)
              (valor_atributo_base c1 atr2) (valor_atributo_base c2 atr2)
              s1 s2 (decidir s1 s2).

(** The text printed after ["Vencedor: "]. *)
Definition texto_vencedor (c1 c2 : FichaCidade) (d : Desfecho) : string :=
  match d with
  | VenceCarta1 => cidade c1
  | VenceCarta2 => cidade c2
  | Empate => "Empate!"
  end.

(** ** Standard input and the readers *)

(** The remaining lines of standard input, each without its newline. *)
Definition Entrada : Type := list string.

(** The numeric conversions of [scanf] come from the C library.  Each takes a
    line on which the conversion starts (leading blanks included) and gives
    the converted value, or [None] on a matching failure. *)
Class Conversoes : Type := {
  scan_lu : string -> option Z;      (* "%lu" *)
  scan_lf : string -> option float;  (* "%lf" *)
  scan_d : string -> option Z        (* "%d" *)
}.

(** [isspace] in the C locale. *)
Definition espaco (c : ascii) : bool :=
  let n := nat_of_ascii c in
  (Nat.eqb n 32 || (Nat.leb 9 n && Nat.leb n 13))%bool.

Fixpoint pular_espacos (s : string) : string :=
  match s with
  | EmptyString => EmptyString
  | String c s' => if espaco c then pular_espacos s' else s
  end.

(** A line of blanks only: every [scanf] directive used here skips it together
    with its newline and goes on to the next line. *)
Definition em_branco (s : string) : bool :=
  match pular_espacos s with
  | EmptyString => true
  | String _ _ => false
  end.

(** The characters ["%Ns"] stores: at most [n], up to the first blank. *)
Fixpoint palavra (n : nat) (s : string) : string :=
  match n, s with
  | S n', String c s' => if espaco c then EmptyString else String c (palavra n' s')
  | _, _ => EmptyString
  end.

(** [fgets(buf, n, stdin)] followed by the cut at the newline that
    [ler_texto] makes with [strcspn].  [None] is the [NULL] result, with
    nothing stored: [n <= 0], or end of input.  With [n = 1] there is room for
    the terminator only and nothing is read.  Otherwise at most [n - 1]
    characters are taken, newline included; what does not fit stays on
    standard input. *)
Definition fgets_linha (n : Z) (inp : Entrada) : option (string * Entrada) :=
  if n <=? 0 then None
  else if n =? 1 then Some (EmptyString, inp)
  else match inp with
       | [] => None
       | l :: rest =>
           let k := Z.to_nat (n - 1) in
           if Nat.leb (S (String.length l)) k
           then Some (l, rest)
           else Some (substring 0 k l,
                      substring k (String.length l - k) l :: rest)
       end.

(** [ler_texto]: [buf] is what the buffer held before the call and [tam] the
    [size_t] passed, which [fgets] receives as [(int)tam].  When [fgets]
    gives [NULL] the buffer is made empty if [tam > 0] and left as it was
    otherwise. *)
Definition ler_texto (buf : string) (tam : Z) (inp : Entrada)
  : string * Entrada :=
  match fgets_linha (to_int tam) inp with
  | Some r => r
  | None => ((if 0 <? tam then EmptyString else buf), inp)
  end.

(** [ler_char]: [scanf(" %c")] fails only at end of input, where ['A'] is
    stored; the rest of the line is discarded. *)
Fixpoint ler_char (inp : Entrada) : ascii * Entrada :=
  match inp with
  | [] => ("A"%char, [])
  | l :: rest =>
      match pular_espacos l with
      | EmptyString => ler_char rest
      | String c _ => (c, rest)
      end
  end.

(** The [scanf("%4s", f->codigo)] of [ler_ficha] with its fallback ["A01"] and
    the discarding of the rest of the line. *)
Fixpoint ler_codigo (inp : Entrada) : string * Entrada :=
  match inp with
  | [] => ("A01"%string, [])
  | l :: rest =>
      match pular_espacos l with
      | EmptyString => ler_codigo rest
      | String _ _ as w => (palavra 4 w, rest)
      end
  end.

(** The loop shared by [ler_ulong], [ler_double] and [ler_int]:
    [while (scanf(fmt, out) != 1) limpar_buffer_stdin();] followed by
    [limpar_buffer_stdin()].  A failed line is discarded and the conversion is
    tried on the next one; at end of input [scanf] keeps returning [EOF] and
    the loop never ends. *)
Fixpoint ler_ate_converter {A : Type} (scan : string -> option A)
         (inp : Entrada) : option (A * Entrada) :=
  match inp with
  | [] => None
  | l :: rest =>
      if em_branco l then ler_ate_converter scan rest
      else match scan l with
           | Some v => Some (v, rest)
           | None => ler_ate_converter scan rest
           end
  end.

Definition ler_ulong `{Conversoes} (inp : Entrada) : option (Z * Entrada) :=
  ler_ate_converter (fun l => option_map to_ulong (scan_lu l)) inp.

Definition ler_double `{Conversoes} (inp : Entrada) : option (float * Entrada) :=
  ler_ate_converter scan_lf inp.

Definition ler_int `{Conversoes} (inp : Entrada) : option (Z * Entrada) :=
  ler_ate_converter (fun l => option_map to_int (scan_d l)) inp.

(** Sequencing of readers that may never return. *)
Definition ligar {A B : Type} (m : option (A * Entrada))
           (k : A -> Entrada -> option B) : option B :=
  match m with
  | None => None
  | Some (a, rest) => k a rest
  end.

Notation "'seja' ( x , i ) <- m ; k" := (ligar m (fun x i => k))
  (at level 10, x name, i name, m at level 100, k at level 200).

(** [ler_ficha]: the seven raw fields are read in order, each overwriting the
    field of [*f], then the derived metrics are computed.  The city buffer is
    passed with [sizeof(f->cidade) = 50], so what it held before never shows
    (see [ler_texto_50]); it is taken empty, as [main] has it. *)
Definition ler_ficha `{Conversoes} (inp : Entrada)
  : option (FichaCidade * Entrada) :=
  let (e, i1) := ler_char inp in
  let (cod, i2) := ler_codigo i1 in
  let (nome, i3) := ler_texto EmptyString 50 i2 in
  seja (pop, i4) <- ler_ulong i3;
  seja (area, i5) <- ler_double i4;
  seja (pib, i6) <- ler_double i5;
  seja (pts, i7) <- ler_int i6;
  Some (calcular_metricas
          (mkFicha e cod nome pop area pib pts 0%float 0%float), i7).

(** ** Attribute selection *)

(** One pass of the [while (1)] body of [ler_atributo_distinto] per unit of
    fuel: read an [int], [continue] when it is out of [1..6] or equal to
    [diferente_de], return it otherwise. *)
Fixpoint ler_atributo_distinto_laco `{Conversoes} (fuel : nat) (inp : Entrada)
         (diferente_de : Z) : option (Z * Entrada) :=
  match fuel with
  | O => None
  | S fuel' =>
      seja (a, rest) <- ler_int inp;
      if (a <? 1) || (a >? 6)
      then ler_atributo_distinto_laco fuel' rest diferente_de
      else if a =? diferente_de
           then ler_atributo_distinto_laco fuel' rest diferente_de
           else Some (a, rest)
  end.

(** Every pass consumes at least one line, so one unit of fuel per line (and
    one for the pass that meets the end of input) is enough; see
    [ler_atributo_distinto_laco_fuel]. *)
Definition ler_atributo_distinto `{Conversoes} (inp : Entrada)
           (diferente_de : Z) : option (Z * Entrada) :=
  ler_atributo_distinto_laco (S (List.length inp)) inp diferente_de.

(** ** The program *)

Record Partida : Type := mkPartida {
  carta1 : FichaCidade;
  carta2 : FichaCidade;
  atr1 : Z;
  atr2 : Z;
  resultado : Resultado
}.

(** [main]: two cards are read, two attributes are chosen, the comparison is
    computed.  The value collects what the program goes on to print. *)
Definition main `{Conversoes} (inp : Entrada) : option Partida :=
  seja (c1, i1) <- ler_ficha inp;
  seja (c2, i2) <- ler_ficha i1;
  seja (a1, i3) <- ler_atributo_distinto i2 0;
  seja (a2, i4) <- ler_atributo_distinto i3 a1;
  Some (mkPartida c1 c2 a1 a2 (comparar c1 c2 a1 a2)).

(** ** Character-level view of the line discipline *)

Definition nova_linha : ascii := "010"%char.

(** [limpar_buffer_stdin] on the characters still to be read: [getchar] is
    called until it gives a newline or [EOF]; what is left is returned. *)
Fixpoint limpar_buffer_stdin (s : string) : string :=
  match s with
  | EmptyString => EmptyString
  | String c s' => if Ascii.eqb c nova_linha then s' else limpar_buffer_stdin s'
  end.

(** The characters before the first newline, and whether there is one. *)
Fixpoint primeira_linha (s : string) : string :=
  match s with
  | EmptyString => EmptyString
  | String c s' =>
      if Ascii.eqb c nova_linha then EmptyString else String c (primeira_linha s')
  end.

Fixpoint tem_nova_linha (s : string) : bool :=
  match s with
  | EmptyString => false
  | String c s' => Ascii.eqb c nova_linha || tem_nova_linha s'
  end.

(** ** The menu *)

(** [mostrar_menu]: the arguments of its seven [puts], in order. *)
Definition mostrar_menu : list string :=
  [ String nova_linha "Atributos disponíveis:";
    "1 - População";
    "2 - Área";
    "3 - PIB";
    "4 - Pontos Turísticos";
    "5 - Densidade Demográfica (menor é melhor)";
    "6 - PIB per Capita" ]%string.

(** ** What the selection loop accepts *)

(** The value a line contributes to [ler_atributo_distinto]: the [int] it
    converts to, when that is in [1..6] and is not [diferente_de]. *)
Definition escolha_aceita `{Conversoes} (diferente_de : Z) (l : string)
  : option Z :=
  match option_map to_int (scan_d l) with
  | Some a =>
      if (a <? 1) || (a >? 6) then None
      else if a =? diferente_de then None
      else Some a
  | None => None
  end.

(** A line the retry loop of a numeric reader passes over. *)
Definition recusada {A : Type} (scan : string -> option A) (l : string) : Prop :=
  em_branco l = true \/ scan l = None.

(** The lines left for the four numeric fields once [ler_ficha] has read the
    state, the code and the city. *)
Definition apos_textos (inp : Entrada) : Entrada :=
  snd (ler_texto EmptyString 50 (snd (ler_codigo (snd (ler_char inp))))).

(** [scan] first succeeds, with value [v], on a non-blank line of [inp]; the
    lines before it are passed over and [rest] is what follows it. *)
Definition primeira_conversao {A : Type} (scan : string -> option A)
           (inp : Entrada) (v : A) (rest : Entrada) : Prop :=
  exists pre l,
    inp = pre ++ l :: rest /\ Forall (recusada scan) pre /\
    em_branco l = false /\ scan l = Some v.


(** ** The operations as the specification words them *)

Module Spec.

Inductive Erro : Type :=
| UnknownAttribute
| DuplicateAttributeSelection.

(** AttributeCatalog: the display name, failing with [UnknownAttribute]
    outside the closed set of six. *)
Definition displayName (atr : Z) : Erro + string :=
  if atributo_valido atr then inr (nome_atributo atr) else inl UnknownAttribute.

(** AttributeAccessor: the base value, failing with [UnknownAttribute]
    outside the enumeration. *)
Definition baseValue (f : FichaCidade) (atr : Z) : Erro + float :=
  if atributo_valido atr then inr (valor_atributo_base f atr)
  else inl UnknownAttribute.


(** Input contract: every raw field is non-negative. *)
Definition campos_nao_negativos (f : FichaCidade) : Prop :=
  0 <= populacao f /\ 0 <= pontos_turisticos f /\
  (0 <=? area_km2 f)%float = true /\ (0 <=? pib_bilhoes f)%float = true.

End Spec.

(** ** A sample of the C library's conversions

    Decimal numerals with an optional sign and, for ["%lf"], an optional
    fraction; no exponent, no hexadecimal, no [inf]/[nan].  On numerals of at
    most fifteen digits the quotient below is the correctly rounded value, as
    [scanf] gives it.  Used to run the readers on concrete lines. *)

Module Exemplo.

Definition digito (c : ascii) : option Z :=
  let n := nat_of_ascii c in
  if (Nat.leb 48 n && Nat.leb n 57)%bool then Some (Z.of_nat (n - 48)) else None.

(** Longest prefix of digits: its value, its length, and whether it is
    non-empty. *)
Fixpoint digitos (s : string) (acc : Z) (k : nat) : Z * nat * string :=
  match s with
  | String c s' =>
      match digito c with
      | Some d => digitos s' (10 * acc + d) (S k)
      | None => (acc, k, s)
      end
  | EmptyString => (acc, k, s)
  end.

Definition sinal (s : string) : bool * string :=
  match s with
  | String "-"%char s' => (true, s')
  | String "+"%char s' => (false, s')
  | _ => (false, s)
  end.

Definition inteiro (l : string) : option Z :=
  let (neg, s) := sinal (pular_espacos l) in
  match digitos s 0 O with
  | (_, O, _) => None
  | (v, S _, _) => Some (if neg then - v else v)
  end.

Definition decimal (l : string) : option float :=
  let (neg, s) := sinal (pular_espacos l) in
  match digitos s 0 O with
  | (_, O, _) => None
  | (v, S _, String "."%char s') =>
      match digitos s' v O with
      | (w, k, _) =>
          let x := (double_of_Z w / double_of_Z (10 ^ Z.of_nat k))%float in
          Some (if neg then (- x)%float else x)
      end
  | (v, S _, _) =>
      let x := double_of_Z v in Some (if neg then (- x)%float else x)
  end.

#[local] Instance conversoes : Conversoes :=
  {| scan_lu := inteiro; scan_lf := decimal; scan_d := inteiro |}.

(** The cards of the two density and per-capita scenarios. *)
Definition carta_a : FichaCidade :=
  calcular_metricas (mkFicha "A" "A01" "Alfa" 1000000 500 10 30 0 0).

Definition carta_b : FichaCidade :=
  calcular_metricas (mkFicha "B" "B02" "Beta" 500000 1000 5 20 0 0).

(** Two cards typed in full, then the attributes 5 and 6. *)
Definition entrada_partida : Entrada :=
  [ "A"; "A01"; "Alfa"; "1000000"; "500"; "10"; "30";
    "B"; "B02"; "Beta"; "500000"; "1000"; "5"; "20";
    "5"; "6" ]%string.

(** A card whose area and number of sights are typed with a minus sign. *)
Definition entrada_negativa : Entrada :=
  [ "C"; "C03"; "Atlantida"; "1000"; "-5.5"; "10"; "-3" ]%string.

(** Attribute choices: not a number, out of range, already chosen, valid. *)
Definition entrada_escolha : Entrada := [ "abc"; "9"; "3"; ""; "4"; "2" ]%string.


(** A third card, and lines for the reader edge cases. *)
Definition carta_c : FichaCidade :=
  calcular_metricas (mkFicha "C" "C03" "Gama" 250000 2000 2.5 10 0 0).

Definition nome_longo : string :=
  "Vila Bela da Santissima Trindade do Mato Grosso do Sul".

End Exemplo.

(** * Properties *)

(** ** Machine numbers *)

Lemma to_ulong_range z : 0 <= to_ulong z < ULONG_MODULUS.
Proof. unfold to_ulong, ULONG_MODULUS. apply Z.mod_pos_bound. lia. Qed.

Lemma to_int_range z : INT_MIN <= to_int z <= INT_MAX.
Proof.
  unfold to_int, INT_MIN, INT_MAX, INT_MODULUS.
  pose proof (Z.mod_pos_bound (z - - 2 ^ 31) (2 ^ 32)) as H. lia.
Qed.

Lemma to_int_id z : INT_MIN <= z <= INT_MAX -> to_int z = z.
Proof.
  unfold to_int, INT_MIN, INT_MAX, INT_MODULUS. intros H.
  rewrite Z.mod_small; lia.
Qed.

(** *** Order facts on binary64 comparisons *)

Lemma SFcompare_antisym x y :
  SFcompare y x = option_map CompOpp (SFcompare x y).
Proof.
  destruct x as [sx|sx| |sx mx ex], y as [sy|sy| |sy my ey];
    simpl; try reflexivity;
    try (destruct sx; reflexivity); try (destruct sy; reflexivity);
    try (destruct sx, sy; reflexivity).
  destruct sx, sy; simpl; try reflexivity;
    rewrite (Z.compare_antisym ex ey);
    destruct (ex ?= ey)%Z; simpl; try reflexivity;
    rewrite (Pos.compare_cont_antisym mx my Eq); simpl;
    try rewrite CompOpp_involutive; reflexivity.
Qed.

Lemma dgt_asym x y : dgt x y = true -> dgt y x = false.
Proof.
  unfold dgt. rewrite !ltb_spec. unfold SFltb.
  rewrite (SFcompare_antisym (Prim2SF y) (Prim2SF x)).
  destruct (SFcompare (Prim2SF y) (Prim2SF x)) as [[]|]; simpl;
    intros H; try discriminate H; reflexivity.
Qed.

Lemma deq_not_dgt x y : (x =? y)%float = true -> dgt x y = false.
Proof.
  unfold dgt. rewrite eqb_spec, ltb_spec. unfold SFeqb, SFltb.
  rewrite (SFcompare_antisym (Prim2SF x) (Prim2SF y)).
  destruct (SFcompare (Prim2SF x) (Prim2SF y)) as [[]|]; simpl;
    intros H; try discriminate H; reflexivity.
Qed.

(** ** Example cards *)

Lemma exemplo_densidade :
  densidade (calcular_metricas
    (mkFicha "A" "A01" "Alfa" 1000000 500 10 30 0 0)) = 2000%float.
Proof. vm_compute. reflexivity. Qed.

Lemma exemplo_pib_per_capita :
  pib_per_capita (calcular_metricas
    (mkFicha "B" "B02" "Beta" 100000 1000 5 20 0 0)) = 50000%float.
Proof. vm_compute. reflexivity. Qed.

Lemma exemplo_pontuar_densidade :
  pontuar_atributo (calcular_metricas
    (mkFicha "A" "A01" "Alfa" 1000000 500 10 30 0 0)) ATR_DENSIDADE
  = (1 / 2000)%float.
Proof. vm_compute. reflexivity. Qed.

(** ** Derived metrics *)

Lemma calcular_metricas_raw f :
  populacao (calcular_metricas f) = populacao f /\
  area_km2 (calcular_metricas f) = area_km2 f /\
  pib_bilhoes (calcular_metricas f) = pib_bilhoes f /\
  pontos_turisticos (calcular_metricas f) = pontos_turisticos f.
Proof. unfold calcular_metricas; simpl; repeat split. Qed.

(** C1. For every card the derived metrics are: density = population / area
    when area > 0 and 0 when area = 0 (either zero of binary64); per-capita
    output = (output * 1e9) / population when population > 0 and 0 when
    population = 0.  [calcular_metricas] is a total function: the zero cases
    produce a card, not an error. *)
Theorem calcular_metricas_spec (f : FichaCidade) :
  (dgt (area_km2 f) 0 = true ->
     densidade (calcular_metricas f)
     = (double_of_Z (populacao f) / area_km2 f)%float) /\
  ((area_km2 f =? 0)%float = true ->
     densidade (calcular_metricas f) = 0%float) /\
  (0 < populacao f ->
     pib_per_capita (calcular_metricas f)
     = (pib_bilhoes f * 1e9 / double_of_Z (populacao f))%float) /\
  (populacao f = 0 ->
     pib_per_capita (calcular_metricas f) = 0%float).
Proof.
  unfold calcular_metricas; simpl. repeat split.
  - intros H. rewrite H. reflexivity.
  - intros H. rewrite (deq_not_dgt _ _ H). reflexivity.
  - intros H. apply Z.ltb_lt in H. rewrite H. reflexivity.
  - intros H. rewrite H. reflexivity.
Qed.

Lemma calcular_metricas_spec_witness :
  densidade (calcular_metricas (mkFicha "A" "A01" "Alfa" 1000000 500 10 30 0 0))
  = (double_of_Z 1000000 / 500)%float /\
  densidade (calcular_metricas (mkFicha "Z" "Z00" "Nula" 0 0 10 30 7 7))
  = 0%float /\
  pib_per_capita (calcular_metricas (mkFicha "A" "A01" "Alfa" 1000000 500 10 30 0 0))
  = (10 * 1e9 / double_of_Z 1000000)%float /\
  pib_per_capita (calcular_metricas (mkFicha "Z" "Z00" "Nula" 0 0 10 30 7 7))
  = 0%float.
Proof.
  split; [|split; [|split]].
  - apply (proj1 (calcular_metricas_spec
                    (mkFicha "A" "A01" "Alfa" 1000000 500 10 30 0 0))).
    vm_compute. reflexivity.
  - apply (proj1 (proj2 (calcular_metricas_spec
                    (mkFicha "Z" "Z00" "Nula" 0 0 10 30 7 7)))).
    vm_compute. reflexivity.
  - apply (proj1 (proj2 (proj2 (calcular_metricas_spec
                    (mkFicha "A" "A01" "Alfa" 1000000 500 10 30 0 0))))).
    simpl. lia.
  - apply (proj2 (proj2 (proj2 (calcular_metricas_spec
                    (mkFicha "Z" "Z00" "Nula" 0 0 10 30 7 7))))).
    reflexivity.
Defined.

(** Whatever is not a positive area (zero, negative, NaN) gives density 0. *)
Lemma calcular_metricas_densidade_zero f :
  dgt (area_km2 f) 0 = false -> densidade (calcular_metricas f) = 0%float.
Proof. unfold calcular_metricas; simpl. intros H. rewrite H. reflexivity. Qed.

(** C10. Running [calcular_metricas] a second time changes nothing: both
    derived fields are functions of the raw fields, which the first run leaves
    as they were. *)
Theorem calcular_metricas_idempotente (f : FichaCidade) :
  calcular_metricas (calcular_metricas f) = calcular_metricas f.
Proof. unfold calcular_metricas; simpl. reflexivity. Qed.

Lemma calcular_metricas_ptr_idempotente p :
  calcular_metricas_ptr (calcular_metricas_ptr p) = calcular_metricas_ptr p.
Proof. destruct p as [f|]; reflexivity. Qed.

(** The derived fields do not depend on what they held before. *)
Lemma calcular_metricas_ignora_derivados e c n p a g t d1 pc1 d2 pc2 :
  calcular_metricas (mkFicha e c n p a g t d1 pc1)
  = calcular_metricas (mkFicha e c n p a g t d2 pc2).
Proof. reflexivity. Qed.

(** ** Attribute table, base value and score *)

Lemma atributo_valido_iff atr : atributo_valido atr = true <-> 1 <= atr <= 6.
Proof. unfold atributo_valido. rewrite andb_true_iff, !Z.leb_le. tauto. Qed.

Ltac fora_do_enum H :=
  apply not_true_iff_false in H; rewrite atributo_valido_iff in H;
  unfold ATR_POPULACAO, ATR_AREA, ATR_PIB, ATR_TURISMO, ATR_DENSIDADE, ATR_PIB_PC;
  repeat match goal with
         | |- context [ (?a =? ?b)%Z ] => destruct (Z.eqb_spec a b); [lia|]
         end.

Lemma pontuar_atributo_outros f atr :
  atr <> ATR_DENSIDADE -> pontuar_atributo f atr = valor_atributo_base f atr.
Proof.
  intros H. unfold pontuar_atributo.
  destruct (Z.eqb_spec atr ATR_DENSIDADE); [contradiction|reflexivity].
Qed.

Lemma pontuar_atributo_densidade f :
  pontuar_atributo f ATR_DENSIDADE
  = if dgt (densidade f) 0 then (1 / densidade f)%float else 0%float.
Proof. reflexivity. Qed.

(** C2. For every card and every attribute of the six-member enumeration the
    score is 1/density for the density attribute when the density is
    positive, 0 for the density attribute when the density is zero, and the
    attribute's base value for every other attribute. *)
Theorem pontuar_atributo_spec (f : FichaCidade) (atr : Z) :
  atributo_valido atr = true ->
  (atr = ATR_DENSIDADE -> dgt (densidade f) 0 = true ->
     pontuar_atributo f atr = (1 / densidade f)%float) /\
  (atr = ATR_DENSIDADE -> (densidade f =? 0)%float = true ->
     pontuar_atributo f atr = 0%float) /\
  (atr <> ATR_DENSIDADE ->
     pontuar_atributo f atr = valor_atributo_base f atr).
Proof.
  intros _. repeat split.
  - intros -> H. rewrite pontuar_atributo_densidade, H. reflexivity.
  - intros -> H. rewrite pontuar_atributo_densidade, (deq_not_dgt _ _ H).
    reflexivity.
  - apply pontuar_atributo_outros.
Qed.

Lemma pontuar_atributo_spec_witness :
  pontuar_atributo (mkFicha "A" "A01" "Alfa" 1000000 500 10 30 2000 10000) 5
  = (1 / 2000)%float /\
  pontuar_atributo (mkFicha "Z" "Z00" "Nula" 7 0 10 30 0 0) 5 = 0%float /\
  pontuar_atributo (mkFicha "A" "A01" "Alfa" 1000000 500 10 30 2000 10000) 2
  = valor_atributo_base (mkFicha "A" "A01" "Alfa" 1000000 500 10 30 2000 10000) 2.
Proof.
  split; [|split].
  - apply (proj1 (pontuar_atributo_spec
                    (mkFicha "A" "A01" "Alfa" 1000000 500 10 30 2000 10000) 5
                    eq_refl)).
    + reflexivity.
    + vm_compute. reflexivity.
  - apply (proj1 (proj2 (pontuar_atributo_spec
                    (mkFicha "Z" "Z00" "Nula" 7 0 10 30 0 0) 5 eq_refl))).
    + reflexivity.
    + vm_compute. reflexivity.
  - apply (proj2 (proj2 (pontuar_atributo_spec
                    (mkFicha "A" "A01" "Alfa" 1000000 500 10 30 2000 10000) 2
                    eq_refl))).
    unfold ATR_DENSIDADE. lia.
Defined.

(** C5, as the code has it.  For every identifier outside the six-value
    enumeration [nome_atributo] returns the placeholder name
    ["Desconhecido"] and [valor_atributo_base] returns [0.0]; neither signals
    an error. *)
Theorem atributo_desconhecido_default (f : FichaCidade) (atr : Z) :
  atributo_valido atr = false ->
  nome_atributo atr = "Desconhecido"%string /\
  valor_atributo_base f atr = 0%float /\
  pontuar_atributo f atr = 0%float.
Proof.
  intros H. unfold pontuar_atributo, nome_atributo, valor_atributo_base.
  fora_do_enum H. repeat split.
Qed.

Lemma atributo_desconhecido_default_witness :
  nome_atributo 7 = "Desconhecido"%string /\
  valor_atributo_base (mkFicha "A" "A01" "Alfa" 1000000 500 10 30 2000 10000) 7
  = 0%float /\
  pontuar_atributo (mkFicha "A" "A01" "Alfa" 1000000 500 10 30 2000 10000) 7
  = 0%float.
Proof.
  apply (atributo_desconhecido_default
           (mkFicha "A" "A01" "Alfa" 1000000 500 10 30 2000 10000) 7).
  reflexivity.
Defined.

(** C5, as the specification words it, fails: at identifier 7 the
    specification's lookup and accessor fail with [UnknownAttribute], while
    the program's functions return a name and a number. *)
Lemma atributo_desconhecido_sem_erro :
  Spec.displayName 7 = inl Spec.UnknownAttribute /\
  Spec.baseValue ficha_zero 7 = inl Spec.UnknownAttribute /\
  inr (nome_atributo 7) <> Spec.displayName 7 /\
  inr (valor_atributo_base ficha_zero 7) <> Spec.baseValue ficha_zero 7 /\
  nome_atributo 7 = "Desconhecido"%string /\
  valor_atributo_base ficha_zero 7 = 0%float.
Proof. repeat split; try reflexivity; discriminate. Qed.

(** On the enumeration the two wordings agree. *)
Lemma spec_acessores_no_enum f atr :
  atributo_valido atr = true ->
  Spec.displayName atr = inr (nome_atributo atr) /\
  Spec.baseValue f atr = inr (valor_atributo_base f atr).
Proof. intros H. unfold Spec.displayName, Spec.baseValue. now rewrite H. Qed.

(** ** Comparison *)

Lemma decidir_carta1 s1 s2 : dgt s1 s2 = true -> decidir s1 s2 = VenceCarta1.
Proof. unfold decidir. intros ->. reflexivity. Qed.

Lemma decidir_carta2 s1 s2 : dgt s2 s1 = true -> decidir s1 s2 = VenceCarta2.
Proof.
  unfold decidir. intros H. rewrite (dgt_asym _ _ H), H. reflexivity.
Qed.

Lemma decidir_empate s1 s2 :
  dgt s1 s2 = false -> dgt s2 s1 = false -> decidir s1 s2 = Empate.
Proof. unfold decidir. intros -> ->. reflexivity. Qed.

Lemma decidir_inv s1 s2 :
  (decidir s1 s2 = VenceCarta1 <-> dgt s1 s2 = true) /\
  (decidir s1 s2 = VenceCarta2 <-> dgt s2 s1 = true) /\
  (decidir s1 s2 = Empate <-> dgt s1 s2 = false /\ dgt s2 s1 = false).
Proof.
  unfold decidir.
  destruct (dgt s1 s2) eqn:E1.
  - rewrite (dgt_asym _ _ E1).
    repeat split; try reflexivity; try discriminate; intros []; discriminate.
  - destruct (dgt s2 s1) eqn:E2;
      repeat split; try reflexivity; try discriminate; intros []; discriminate.
Qed.

Lemma decidir_troca s1 s2 : decidir s2 s1 = espelhar (decidir s1 s2).
Proof.
  unfold decidir.
  destruct (dgt s1 s2) eqn:E1.
  - rewrite (dgt_asym _ _ E1). reflexivity.
  - destruct (dgt s2 s1); reflexivity.
Qed.

Lemma comparar_troca c1 c2 a1 a2 :
  c1_score (comparar c2 c1 a1 a2) = c2_score (comparar c1 c2 a1 a2) /\
  c2_score (comparar c2 c1 a1 a2) = c1_score (comparar c1 c2 a1 a2) /\
  desfecho (comparar c2 c1 a1 a2) = espelhar (desfecho (comparar c1 c2 a1 a2)).
Proof. unfold comparar; simpl. repeat split. apply decidir_troca. Qed.

(** C3. For every pair of cards and every pair of distinct chosen attributes,
    with the aggregate score of a card being the sum of its scores on the two
    chosen attributes: card 1 wins if its aggregate score strictly exceeds
    that of card 2, card 2 wins if its score strictly exceeds that of card 1,
    and otherwise the result is a tie. *)
Theorem comparar_desfecho (c1 c2 : FichaCidade) (a1 a2 : Z) :
  atributo_valido a1 = true -> atributo_valido a2 = true -> a1 <> a2 ->
  let s1 := (pontuar_atributo c1 a1 + pontuar_atributo c1 a2)%float in
  let s2 := (pontuar_atributo c2 a1 + pontuar_atributo c2 a2)%float in
  (dgt s1 s2 = true -> desfecho (comparar c1 c2 a1 a2) = VenceCarta1) /\
  (dgt s2 s1 = true -> desfecho (comparar c1 c2 a1 a2) = VenceCarta2) /\
  (dgt s1 s2 = false -> dgt s2 s1 = false ->
   desfecho (comparar c1 c2 a1 a2) = Empate).
Proof.
  intros _ _ _. unfold comparar; simpl. repeat split.
  - apply decidir_carta1.
  - apply decidir_carta2.
  - apply decidir_empate.
Qed.

(** C4. For every card and every pair of distinct attributes the aggregate
    score is score(a1) + score(a2); nothing is normalized: when neither
    attribute is the density, it is the plain sum of the two base values. *)
Theorem comparar_score_soma (c1 c2 : FichaCidade) (a1 a2 : Z) :
  atributo_valido a1 = true -> atributo_valido a2 = true -> a1 <> a2 ->
  let r := comparar c1 c2 a1 a2 in
  c1_score r = (pontuar_atributo c1 a1 + pontuar_atributo c1 a2)%float /\
  c2_score r = (pontuar_atributo c2 a1 + pontuar_atributo c2 a2)%float /\
  (a1 <> ATR_DENSIDADE -> a2 <> ATR_DENSIDADE ->
   c1_score r = (valor_atributo_base c1 a1 + valor_atributo_base c1 a2)%float /\
   c2_score r = (valor_atributo_base c2 a1 + valor_atributo_base c2 a2)%float).
Proof.
  intros _ _ _. unfold comparar; simpl. repeat split.
  - now rewrite !pontuar_atributo_outros.
  - now rewrite !pontuar_atributo_outros.
Qed.

(** C7. For every pair of cards and every pair of distinct attributes,
    exchanging the two cards flips the winner and preserves a tie. *)
Theorem comparar_simetria (c1 c2 : FichaCidade) (a1 a2 : Z) :
  atributo_valido a1 = true -> atributo_valido a2 = true -> a1 <> a2 ->
  (desfecho (comparar c1 c2 a1 a2) = VenceCarta1 ->
   desfecho (comparar c2 c1 a1 a2) = VenceCarta2) /\
  (desfecho (comparar c1 c2 a1 a2) = VenceCarta2 ->
   desfecho (comparar c2 c1 a1 a2) = VenceCarta1) /\
  (desfecho (comparar c1 c2 a1 a2) = Empate ->
   desfecho (comparar c2 c1 a1 a2) = Empate).
Proof.
  intros _ _ _.
  destruct (comparar_troca c1 c2 a1 a2) as (_ & _ & ->).
  repeat split; intros ->; reflexivity.
Qed.

(** On a tie the program prints the literal, whatever the cards are called. *)
Lemma texto_vencedor_empate c1 c2 a1 a2 :
  dgt (c1_score (comparar c1 c2 a1 a2)) (c2_score (comparar c1 c2 a1 a2)) = false ->
  dgt (c2_score (comparar c1 c2 a1 a2)) (c1_score (comparar c1 c2 a1 a2)) = false ->
  texto_vencedor c1 c2 (desfecho (comparar c1 c2 a1 a2)) = "Empate!"%string.
Proof.
  unfold comparar; simpl. intros H1 H2.
  rewrite (decidir_empate _ _ H1 H2). reflexivity.
Qed.


Lemma comparar_desfecho_witness :
  desfecho (comparar Exemplo.carta_b Exemplo.carta_a 5 6) = VenceCarta1 /\
  desfecho (comparar Exemplo.carta_a Exemplo.carta_b 5 6) = VenceCarta2 /\
  desfecho (comparar Exemplo.carta_a Exemplo.carta_a 5 6) = Empate.
Proof.
  split; [|split].
  - apply (proj1 (comparar_desfecho Exemplo.carta_b Exemplo.carta_a 5 6
                    eq_refl eq_refl ltac:(lia))).
    vm_compute. reflexivity.
  - apply (proj1 (proj2 (comparar_desfecho Exemplo.carta_a Exemplo.carta_b 5 6
                    eq_refl eq_refl ltac:(lia)))).
    vm_compute. reflexivity.
  - apply (proj2 (proj2 (comparar_desfecho Exemplo.carta_a Exemplo.carta_a 5 6
                    eq_refl eq_refl ltac:(lia)))).
    + vm_compute. reflexivity.
    + vm_compute. reflexivity.
Defined.

Lemma comparar_score_soma_witness :
  c1_score (comparar Exemplo.carta_a Exemplo.carta_b 1 2)
  = (valor_atributo_base Exemplo.carta_a 1
     + valor_atributo_base Exemplo.carta_a 2)%float /\
  c2_score (comparar Exemplo.carta_a Exemplo.carta_b 1 2)
  = (valor_atributo_base Exemplo.carta_b 1
     + valor_atributo_base Exemplo.carta_b 2)%float.
Proof.
  apply (proj2 (proj2 (comparar_score_soma Exemplo.carta_a Exemplo.carta_b 1 2
                    eq_refl eq_refl ltac:(lia)))).
  - unfold ATR_DENSIDADE. lia.
  - unfold ATR_DENSIDADE. lia.
Defined.

Lemma comparar_simetria_witness :
  desfecho (comparar Exemplo.carta_b Exemplo.carta_a 5 6) = VenceCarta1 /\
  desfecho (comparar Exemplo.carta_a Exemplo.carta_b 5 6) = VenceCarta2 /\
  desfecho (comparar Exemplo.carta_a Exemplo.carta_a 5 6) = Empate.
Proof.
  split; [|split].
  - apply (proj1 (proj2 (comparar_simetria Exemplo.carta_a Exemplo.carta_b 5 6
                    eq_refl eq_refl ltac:(lia)))).
    vm_compute. reflexivity.
  - apply (proj1 (comparar_simetria Exemplo.carta_b Exemplo.carta_a 5 6
                    eq_refl eq_refl ltac:(lia))).
    vm_compute. reflexivity.
  - apply (proj2 (proj2 (comparar_simetria Exemplo.carta_a Exemplo.carta_a 5 6
                    eq_refl eq_refl ltac:(lia)))).
    vm_compute. reflexivity.
Defined.

(** The scores of the density scenario: the sparser card wins. *)
Lemma exemplo_partida_scores :
  c1_score (comparar Exemplo.carta_a Exemplo.carta_b 5 6)
  = (1 / 2000 + 10000)%float /\
  c2_score (comparar Exemplo.carta_a Exemplo.carta_b 5 6)
  = (1 / 500 + 10000)%float.
Proof. split; vm_compute; reflexivity. Qed.

(** ** Readers *)

Section Leitores.

Context {C : Conversoes}.

Lemma ler_ate_converter_resto {A : Type} (scan : string -> option A) inp v rest :
  ler_ate_converter scan inp = Some (v, rest) ->
  (List.length rest < List.length inp)%nat.
Proof.
  induction inp as [|l inp IH]; simpl; [discriminate|].
  destruct (em_branco l).
  - intros H. apply IH in H. lia.
  - destruct (scan l) as [x|].
    + intros H. injection H as _ <-. lia.
    + intros H. apply IH in H. lia.
Qed.

(** The value returned is the conversion of a non-blank line of the input. *)
Lemma ler_ate_converter_origem {A : Type} (scan : string -> option A) inp v rest :
  ler_ate_converter scan inp = Some (v, rest) ->
  exists l, In l inp /\ em_branco l = false /\ scan l = Some v.
Proof.
  induction inp as [|l inp IH]; simpl; [discriminate|].
  destruct (em_branco l) eqn:B.
  - intros H. destruct (IH H) as (l' & Hin & Hl'). exists l'. tauto.
  - destruct (scan l) as [x|] eqn:S.
    + intros H. injection H as <- _. exists l. tauto.
    + intros H. destruct (IH H) as (l' & Hin & Hl'). exists l'. tauto.
Qed.

(** A line that converts is taken as it is; a blank or failing line is
    dropped and the next one is tried. *)
Lemma ler_ate_converter_aceita {A : Type} (scan : string -> option A) l rest v :
  em_branco l = false -> scan l = Some v ->
  ler_ate_converter scan (l :: rest) = Some (v, rest).
Proof. intros B S. simpl. rewrite B, S. reflexivity. Qed.

Lemma ler_ate_converter_repete {A : Type} (scan : string -> option A) l rest :
  em_branco l = true \/ scan l = None ->
  ler_ate_converter scan (l :: rest) = ler_ate_converter scan rest.
Proof.
  intros [B|S]; simpl.
  - rewrite B. reflexivity.
  - rewrite S. destruct (em_branco l); reflexivity.
Qed.

(** At the end of input the retry loop never returns. *)
Lemma ler_ate_converter_fim {A : Type} (scan : string -> option A) :
  ler_ate_converter scan [] = None.
Proof. reflexivity. Qed.

(** It returns exactly when some remaining line converts. *)
Lemma ler_ate_converter_retorna {A : Type} (scan : string -> option A) inp :
  (exists l, In l inp /\ em_branco l = false /\ scan l <> None) ->
  exists v rest, ler_ate_converter scan inp = Some (v, rest).
Proof.
  induction inp as [|l inp IH]; intros (l' & Hin & B & S).
  - destruct Hin.
  - simpl. destruct (em_branco l) eqn:Bl.
    + apply IH. destruct Hin as [->|Hin]; [congruence|]. exists l'. tauto.
    + destruct (scan l) as [x|] eqn:Sl; [eauto|].
      apply IH. destruct Hin as [->|Hin]; [congruence|]. exists l'. tauto.
Qed.

Lemma ler_ulong_range inp p rest :
  ler_ulong inp = Some (p, rest) -> 0 <= p < ULONG_MODULUS.
Proof.
  unfold ler_ulong. intros H.
  apply ler_ate_converter_origem in H. destruct H as (l & _ & _ & H).
  destruct (scan_lu l) as [z|]; simpl in H; [|discriminate].
  injection H as <-. apply to_ulong_range.
Qed.

Lemma ler_int_range inp a rest :
  ler_int inp = Some (a, rest) -> INT_MIN <= a <= INT_MAX.
Proof.
  unfold ler_int. intros H.
  apply ler_ate_converter_origem in H. destruct H as (l & _ & _ & H).
  destruct (scan_d l) as [z|]; simpl in H; [|discriminate].
  injection H as <-. apply to_int_range.
Qed.

Lemma ler_int_resto inp a rest :
  ler_int inp = Some (a, rest) -> (List.length rest < List.length inp)%nat.
Proof. apply ler_ate_converter_resto. Qed.

(** *** The selection loop *)

(** Fuel beyond the number of remaining lines changes nothing. *)
Lemma ler_atributo_distinto_laco_fuel d n :
  forall m inp,
    (List.length inp < n)%nat -> (List.length inp < m)%nat ->
    ler_atributo_distinto_laco n inp d = ler_atributo_distinto_laco m inp d.
Proof.
  induction n as [|n IH]; intros m inp Hn Hm; [lia|].
  destruct m as [|m]; [lia|]. simpl.
  destruct (ler_int inp) as [[a rest]|] eqn:E; simpl; [|reflexivity].
  apply ler_int_resto in E.
  destruct ((a <? 1) || (a >? 6)); [apply IH; lia|].
  destruct (a =? d); [apply IH; lia|reflexivity].
Qed.

Lemma ler_atributo_distinto_laco_S n inp d :
  ler_atributo_distinto_laco (S n) inp d =
  match ler_int inp with
  | None => None
  | Some (a, rest) =>
      if (a <? 1) || (a >? 6) then ler_atributo_distinto_laco n rest d
      else if a =? d then ler_atributo_distinto_laco n rest d
      else Some (a, rest)
  end.
Proof. simpl. destruct (ler_int inp) as [[a rest]|]; reflexivity. Qed.

(** The loop of the source, one equation per way through its body. *)
Lemma ler_atributo_distinto_eq inp d :
  ler_atributo_distinto inp d =
  match ler_int inp with
  | None => None
  | Some (a, rest) =>
      if (a <? 1) || (a >? 6) then ler_atributo_distinto rest d
      else if a =? d then ler_atributo_distinto rest d
      else Some (a, rest)
  end.
Proof.
  unfold ler_atributo_distinto at 1.
  rewrite ler_atributo_distinto_laco_S.
  destruct (ler_int inp) as [[a rest]|] eqn:E; simpl; [|reflexivity].
  apply ler_int_resto in E.
  destruct ((a <? 1) || (a >? 6));
    [apply ler_atributo_distinto_laco_fuel; lia|].
  destruct (a =? d); [apply ler_atributo_distinto_laco_fuel; lia|reflexivity].
Qed.

Lemma ler_atributo_distinto_laco_ok d n :
  forall inp a rest,
    ler_atributo_distinto_laco n inp d = Some (a, rest) ->
    1 <= a <= 6 /\ a <> d /\ (List.length rest < List.length inp)%nat.
Proof.
  induction n as [|n IH]; intros inp a rest; simpl; [discriminate|].
  destruct (ler_int inp) as [[b rest']|] eqn:E; simpl; [|discriminate].
  apply ler_int_resto in E.
  destruct ((b <? 1) || (b >? 6)) eqn:R.
  - intros H. apply IH in H. lia.
  - destruct (Z.eqb_spec b d) as [->|Hd].
    + intros H. apply IH in H. lia.
    + intros H. injection H as <- <-.
      apply orb_false_iff in R. destruct R as [R1 R2].
      apply Z.ltb_ge in R1. rewrite Z.gtb_ltb in R2. apply Z.ltb_ge in R2.
      lia.
Qed.

(** The loop returns as soon as a line converts to an attribute in range
    other than the excluded one. *)
Lemma ler_atributo_distinto_retorna inp d a rest :
  ler_int inp = Some (a, rest) -> 1 <= a <= 6 -> a <> d ->
  ler_atributo_distinto inp d = Some (a, rest).
Proof.
  intros E R Hd. rewrite ler_atributo_distinto_eq, E.
  replace ((a <? 1) || (a >? 6)) with false.
  - destruct (Z.eqb_spec a d); [contradiction|reflexivity].
  - symmetry. apply orb_false_iff. rewrite Z.gtb_ltb. split; apply Z.ltb_ge; lia.
Qed.

Lemma ligar_some {A B : Type} (m : option (A * Entrada))
      (k : A -> Entrada -> option B) b :
  ligar m k = Some b -> exists a rest, m = Some (a, rest) /\ k a rest = Some b.
Proof. destruct m as [[a rest]|]; simpl; [eauto|discriminate]. Qed.

Lemma main_some inp p :
  main inp = Some p ->
  exists i1 i2 i3 i4,
    ler_ficha inp = Some (carta1 p, i1) /\
    ler_ficha i1 = Some (carta2 p, i2) /\
    ler_atributo_distinto i2 0 = Some (atr1 p, i3) /\
    ler_atributo_distinto i3 (atr1 p) = Some (atr2 p, i4) /\
    resultado p = comparar (carta1 p) (carta2 p) (atr1 p) (atr2 p).
Proof.
  unfold main. intros H.
  apply ligar_some in H. destruct H as (c1 & i1 & E1 & H).
  apply ligar_some in H. destruct H as (c2 & i2 & E2 & H).
  apply ligar_some in H. destruct H as (a1 & i3 & E3 & H).
  apply ligar_some in H. destruct H as (a2 & i4 & E4 & H).
  injection H as <-. simpl. exists i1, i2, i3, i4. repeat split; assumption.
Qed.

End Leitores.

(** C8. Whenever the attribute-selection loop returns, the identifier it
    returns is in [1,6] and differs from the identifier it was told to
    exclude; hence the two attributes [main] passes to the scoring are in
    range and distinct. *)
Theorem ler_atributo_distinto_ok (C : Conversoes) :
  (forall inp d a rest,
      ler_atributo_distinto inp d = Some (a, rest) -> 1 <= a <= 6 /\ a <> d) /\
  (forall inp p,
      main inp = Some p ->
      1 <= atr1 p <= 6 /\ 1 <= atr2 p <= 6 /\ atr1 p <> atr2 p).
Proof.
  split.
  - intros inp d a rest H.
    apply ler_atributo_distinto_laco_ok in H. tauto.
  - intros inp p H.
    apply main_some in H. destruct H as (i1 & i2 & i3 & i4 & _ & _ & H1 & H2 & _).
    apply ler_atributo_distinto_laco_ok in H1, H2. lia.
Qed.

Lemma ler_atributo_distinto_ok_witness :
  (1 <= 4 <= 6 /\ 4 <> 3) /\
  (1 <= 5 <= 6 /\ 1 <= 6 <= 6 /\ 5 <> 6).
Proof.
  split.
  - apply (proj1 (ler_atributo_distinto_ok Exemplo.conversoes)
             Exemplo.entrada_escolha 3 4 ["2"%string]).
    vm_compute. reflexivity.
  - apply (proj2 (ler_atributo_distinto_ok Exemplo.conversoes)
             Exemplo.entrada_partida
             (mkPartida Exemplo.carta_a Exemplo.carta_b 5 6
                (comparar Exemplo.carta_a Exemplo.carta_b 5 6))).
    vm_compute. reflexivity.
Defined.

(** ** The city buffer *)

(** With [sizeof(f->cidade) = 50] the text read is the line, cut at 49
    characters, whatever the buffer held. *)
Lemma ler_texto_50 buf inp :
  ler_texto buf 50 inp =
  match inp with
  | [] => (EmptyString, [])
  | l :: rest =>
      if Nat.leb (S (String.length l)) 49
      then (l, rest)
      else (substring 0 49 l, substring 49 (String.length l - 49) l :: rest)
  end.
Proof.
  unfold ler_texto, fgets_linha.
  change (to_int 50) with 50. change (Z.to_nat (50 - 1)) with 49%nat.
  change (50 <=? 0) with false. change (50 =? 1) with false.
  change (0 <? 50) with true. cbv iota.
  destruct inp as [|l rest]; [reflexivity|].
  destruct (Nat.leb (S (String.length l)) 49); reflexivity.
Qed.

Lemma ler_texto_resto buf tam inp :
  (List.length (snd (ler_texto buf tam inp)) <= List.length inp)%nat.
Proof.
  unfold ler_texto, fgets_linha.
  destruct (to_int tam <=? 0); [simpl; lia|].
  destruct (to_int tam =? 1); [simpl; lia|].
  destruct inp as [|l inp]; [simpl; lia|].
  destruct (Nat.leb (S (String.length l)) (Z.to_nat (to_int tam - 1)));
    simpl; lia.
Qed.

(** ** What [ler_ficha] hands to the metric calculation *)

Section Ficha.

Context {C : Conversoes}.

Lemma ler_ficha_some inp f rest :
  ler_ficha inp = Some (f, rest) ->
  exists i3 i4 i5 i6,
    ler_ulong i3 = Some (populacao f, i4) /\
    ler_double i4 = Some (area_km2 f, i5) /\
    ler_double i5 = Some (pib_bilhoes f, i6) /\
    ler_int i6 = Some (pontos_turisticos f, rest) /\
    f = calcular_metricas f.
Proof.
  unfold ler_ficha.
  destruct (ler_char inp) as [e i1].
  destruct (ler_codigo i1) as [cod i2].
  destruct (ler_texto EmptyString 50 i2) as [nome i3].
  intros H.
  apply ligar_some in H. destruct H as (pop & i4 & E1 & H).
  apply ligar_some in H. destruct H as (area & i5 & E2 & H).
  apply ligar_some in H. destruct H as (pib & i6 & E3 & H).
  apply ligar_some in H. destruct H as (pts & i7 & E4 & H).
  injection H as <- <-. simpl.
  exists i3, i4, i5, i6. repeat split; assumption.
Qed.

End Ficha.

(** C9, as the specification words it, fails: the lines
    [C], [C03], [Atlantida], [1000], [-5.5], [10], [-3] are all accepted
    without a new prompt, and the card handed to the metric calculation has
    area -5.5 and -3 sights. *)
Lemma ler_ficha_aceita_negativos :
  exists f rest,
    @ler_ficha Exemplo.conversoes Exemplo.entrada_negativa = Some (f, rest) /\
    area_km2 f = (-5.5)%float /\
    pontos_turisticos f = -3 /\
    ~ Spec.campos_nao_negativos f.
Proof.
  exists (calcular_metricas
            (mkFicha "C" "C03" "Atlantida" 1000 (-5.5) 10 (-3) 0 0)), [].
  split; [vm_compute; reflexivity|].
  split; [reflexivity|]. split; [reflexivity|].
  intros (_ & H & _). simpl in H. lia.
Qed.

(** Such a card gets density 0, the value of the zero-area case. *)
Lemma exemplo_area_negativa :
  densidade (calcular_metricas
    (mkFicha "C" "C03" "Atlantida" 1000 (-5.5) 10 (-3) 0 0)) = 0%float.
Proof. vm_compute. reflexivity. Qed.

(** * Further properties of the program *)

(** ** The strict order on scores *)

Lemma dgt_irrefl x : dgt x x = false.
Proof.
  destruct (dgt x x) eqn:E; [|reflexivity].
  rewrite (dgt_asym _ _ E) in E. discriminate.
Qed.

Lemma SFcompare_refl_nan x : SFcompare x x <> Some Eq -> x = S754_nan.
Proof.
  destruct x as [s|s| |s m e]; simpl; intros H; try reflexivity;
    exfalso; apply H.
  - reflexivity.
  - destruct s; reflexivity.
  - destruct s; rewrite Z.compare_refl;
      change (Pos.compare_cont Eq m m) with (m ?= m)%positive;
      rewrite Pos.compare_refl; reflexivity.
Qed.

Lemma is_nan_Prim2SF x : is_nan x = true -> Prim2SF x = S754_nan.
Proof.
  unfold is_nan. rewrite eqb_spec. unfold SFeqb. intros H.
  apply SFcompare_refl_nan. intros E. rewrite E in H. discriminate.
Qed.

Lemma dgt_nan x y : is_nan x = true \/ is_nan y = true -> dgt x y = false.
Proof.
  unfold dgt. rewrite ltb_spec. unfold SFltb.
  intros [H|H]; apply is_nan_Prim2SF in H; rewrite H.
  - destruct (Prim2SF y); reflexivity.
  - reflexivity.
Qed.

Lemma Prim2SF_nan_is_nan x : Prim2SF x = S754_nan -> is_nan x = true.
Proof.
  intros H. unfold is_nan. rewrite eqb_spec, H. reflexivity.
Qed.

(** NaN propagates through the addition of two scores. *)
Lemma is_nan_add x y :
  is_nan x = true \/ is_nan y = true -> is_nan (x + y)%float = true.
Proof.
  intros H. apply Prim2SF_nan_is_nan. rewrite add_spec.
  unfold SF64add, SFadd.
  destruct H as [H|H]; apply is_nan_Prim2SF in H; rewrite H.
  - reflexivity.
  - destruct (Prim2SF x); reflexivity.
Qed.

Lemma SFcompare_Lt_trans x y z :
  SFcompare x y = Some Lt -> SFcompare y z = Some Lt -> SFcompare x z = Some Lt.
Proof.
  destruct x as [sx|sx| |sx mx ex], y as [sy|sy| |sy my ey],
           z as [sz|sz| |sz mz ez]; simpl;
    try discriminate; try (intros _ _; reflexivity);
    try (destruct sx; discriminate); try (destruct sy; discriminate);
    try (destruct sz; discriminate);
    try (destruct sx, sy; discriminate); try (destruct sy, sz; discriminate);
    try (destruct sx, sy, sz; try discriminate; intros _ _; reflexivity).
  change (Pos.compare_cont Eq mx my) with (mx ?= my)%positive.
  change (Pos.compare_cont Eq my mz) with (my ?= mz)%positive.
  change (Pos.compare_cont Eq mx mz) with (mx ?= mz)%positive.
  destruct sx, sy, sz; try discriminate; try (intros _ _; reflexivity);
    destruct (Z.compare_spec ex ey), (Z.compare_spec ey ez),
             (Z.compare_spec ex ez);
    destruct (Pos.compare_spec mx my), (Pos.compare_spec my mz),
             (Pos.compare_spec mx mz);
    simpl; intros Ha Hb; try discriminate; try reflexivity; exfalso; lia.
Qed.

Lemma dgt_trans x y z : dgt x y = true -> dgt y z = true -> dgt x z = true.
Proof.
  unfold dgt. rewrite !ltb_spec. unfold SFltb.
  destruct (SFcompare (Prim2SF y) (Prim2SF x)) as [[]|] eqn:E1; try discriminate.
  destruct (SFcompare (Prim2SF z) (Prim2SF y)) as [[]|] eqn:E2; try discriminate.
  intros _ _. rewrite (SFcompare_Lt_trans _ _ _ E2 E1). reflexivity.
Qed.

(** ** More on the comparison *)

(** X1. The verdict is sound with respect to the scores of the chosen
    attributes: the program names card 1 only when the sum of its two scores
    is strictly greater than the sum of card 2's, names card 2 only when
    card 2's sum is strictly greater, and declares a tie only when neither
    sum exceeds the other. *)
Theorem comparar_desfecho_inverso (c1 c2 : FichaCidade) (a1 a2 : Z) :
  let s1 := (pontuar_atributo c1 a1 + pontuar_atributo c1 a2)%float in
  let s2 := (pontuar_atributo c2 a1 + pontuar_atributo c2 a2)%float in
  (desfecho (comparar c1 c2 a1 a2) = VenceCarta1 -> dgt s1 s2 = true) /\
  (desfecho (comparar c1 c2 a1 a2) = VenceCarta2 -> dgt s2 s1 = true) /\
  (desfecho (comparar c1 c2 a1 a2) = Empate ->
   dgt s1 s2 = false /\ dgt s2 s1 = false).
Proof.
  unfold comparar; simpl.
  set (s1 := (pontuar_atributo c1 a1 + pontuar_atributo c1 a2)%float).
  set (s2 := (pontuar_atributo c2 a1 + pontuar_atributo c2 a2)%float).
  destruct (decidir_inv s1 s2) as (H1 & H2 & H3).
  split; [|split]; intros E.
  - apply H1, E.
  - apply H2, E.
  - apply H3, E.
Qed.

Lemma comparar_desfecho_inverso_witness :
  dgt (pontuar_atributo Exemplo.carta_b 5 + pontuar_atributo Exemplo.carta_b 6)
      (pontuar_atributo Exemplo.carta_a 5 + pontuar_atributo Exemplo.carta_a 6)
  = true /\
  dgt (pontuar_atributo Exemplo.carta_a 1 + pontuar_atributo Exemplo.carta_a 3)
      (pontuar_atributo Exemplo.carta_b 1 + pontuar_atributo Exemplo.carta_b 3)
  = true /\
  dgt (pontuar_atributo Exemplo.carta_a 2 + pontuar_atributo Exemplo.carta_a 4)
      (pontuar_atributo Exemplo.carta_a 2 + pontuar_atributo Exemplo.carta_a 4)
  = false.
Proof.
  split; [|split].
  - apply (proj1 (comparar_desfecho_inverso Exemplo.carta_b Exemplo.carta_a 5 6)).
    vm_compute. reflexivity.
  - apply (proj1 (proj2
             (comparar_desfecho_inverso Exemplo.carta_b Exemplo.carta_a 1 3))).
    vm_compute. reflexivity.
  - apply (proj2 (proj2
             (comparar_desfecho_inverso Exemplo.carta_a Exemplo.carta_a 2 4))).
    vm_compute. reflexivity.
Defined.

(** X2. A card compared with itself always ties, whatever the two attribute
    identifiers are (valid or not, equal or not) and whatever its fields hold. *)
Theorem comparar_consigo (c : FichaCidade) (a1 a2 : Z) :
  desfecho (comparar c c a1 a2) = Empate.
Proof.
  unfold comparar; simpl. apply decidir_empate; apply dgt_irrefl.
Qed.

(** X3. A score that is not a number forces a tie: when the score of
    either card on either chosen attribute is NaN, or when the sum of a
    card's two scores is NaN, the card can neither win nor lose. *)
Theorem comparar_nan_empata (c1 c2 : FichaCidade) (a1 a2 : Z) :
  (is_nan (pontuar_atributo c1 a1) = true \/
   is_nan (pontuar_atributo c1 a2) = true \/
   is_nan (pontuar_atributo c2 a1) = true \/
   is_nan (pontuar_atributo c2 a2) = true ->
   desfecho (comparar c1 c2 a1 a2) = Empate) /\
  (is_nan (pontuar_atributo c1 a1 + pontuar_atributo c1 a2) = true \/
   is_nan (pontuar_atributo c2 a1 + pontuar_atributo c2 a2) = true ->
   desfecho (comparar c1 c2 a1 a2) = Empate).
Proof.
  assert (K : is_nan (pontuar_atributo c1 a1 + pontuar_atributo c1 a2) = true \/
              is_nan (pontuar_atributo c2 a1 + pontuar_atributo c2 a2) = true ->
              desfecho (comparar c1 c2 a1 a2) = Empate).
  { unfold comparar; simpl. intros H.
    apply decidir_empate; apply dgt_nan; tauto. }
  split; [|exact K].
  intros [H|[H|[H|H]]]; apply K.
  - left. apply is_nan_add. left. exact H.
  - left. apply is_nan_add. right. exact H.
  - right. apply is_nan_add. left. exact H.
  - right. apply is_nan_add. right. exact H.
Qed.

Lemma comparar_nan_empata_witness :
  desfecho (comparar (mkFicha "N" "N00" "Nenhures" 1000 500 nan 3 2 nan)
                     Exemplo.carta_a 1 3) = Empate /\
  desfecho (comparar Exemplo.carta_a
                     (mkFicha "I" "I00" "Infinita" 1000 infinity neg_infinity
                              3 0 neg_infinity) 2 3) = Empate.
Proof.
  split.
  - apply (proj1 (comparar_nan_empata
                    (mkFicha "N" "N00" "Nenhures" 1000 500 nan 3 2 nan)
                    Exemplo.carta_a 1 3)).
    right. left. vm_compute. reflexivity.
  - apply (proj2 (comparar_nan_empata Exemplo.carta_a
                    (mkFicha "I" "I00" "Infinita" 1000 infinity neg_infinity
                             3 0 neg_infinity) 2 3)).
    right. vm_compute. reflexivity.
Defined.

(** X4. Winning is transitive on a fixed pair of attributes: if the first
    card beats the second and the second beats a third, the first beats the
    third. *)
Theorem comparar_transitivo (c1 c2 c3 : FichaCidade) (a1 a2 : Z) :
  desfecho (comparar c1 c2 a1 a2) = VenceCarta1 ->
  desfecho (comparar c2 c3 a1 a2) = VenceCarta1 ->
  desfecho (comparar c1 c3 a1 a2) = VenceCarta1.
Proof.
  unfold comparar; simpl. intros H12 H23.
  apply decidir_inv in H12. apply decidir_inv in H23.
  apply decidir_carta1. exact (dgt_trans _ _ _ H12 H23).
Qed.

Lemma comparar_transitivo_witness :
  desfecho (comparar Exemplo.carta_c Exemplo.carta_a 5 6) = VenceCarta1.
Proof.
  apply (comparar_transitivo Exemplo.carta_c Exemplo.carta_b Exemplo.carta_a 5 6).
  - vm_compute. reflexivity.
  - vm_compute. reflexivity.
Defined.

(** ** Metrics and scores together *)

Lemma dgt_zero_div a : dgt (0 / a)%float 0 = false.
Proof.
  unfold dgt. rewrite ltb_spec, div_spec.
  replace (Prim2SF 0) with (S754_zero false) by (vm_compute; reflexivity).
  unfold SF64div, SFdiv.
  destruct (Prim2SF a) as [s|s| |s m e]; try reflexivity;
    destruct s; reflexivity.
Qed.

(** X5. A card whose area is not positive (zero, negative or NaN) gets
    density 0 from [calcular_metricas] and then scores 0 on the density
    attribute: the lowest score, not the best one. *)
Theorem area_nao_positiva_pontua_zero (f : FichaCidade) :
  dgt (area_km2 f) 0 = false ->
  densidade (calcular_metricas f) = 0%float /\
  valor_atributo_base (calcular_metricas f) ATR_DENSIDADE = 0%float /\
  pontuar_atributo (calcular_metricas f) ATR_DENSIDADE = 0%float.
Proof.
  intros H. pose proof (calcular_metricas_densidade_zero f H) as D.
  split; [exact D|]. split.
  - unfold valor_atributo_base; simpl. exact D.
  - rewrite pontuar_atributo_densidade, D, dgt_irrefl. reflexivity.
Qed.

Lemma area_nao_positiva_pontua_zero_witness :
  densidade (calcular_metricas
    (mkFicha "C" "C03" "Atlantida" 1000 (-5.5) 10 (-3) 0 0)) = 0%float /\
  pontuar_atributo (calcular_metricas
    (mkFicha "N" "N00" "Nenhures" 1000 nan 10 3 0 0)) ATR_DENSIDADE = 0%float.
Proof.
  split.
  - apply (proj1 (area_nao_positiva_pontua_zero
                    (mkFicha "C" "C03" "Atlantida" 1000 (-5.5) 10 (-3) 0 0)
                    ltac:(vm_compute; reflexivity))).
  - apply (proj2 (proj2 (area_nao_positiva_pontua_zero
                    (mkFicha "N" "N00" "Nenhures" 1000 nan 10 3 0 0)
                    ltac:(vm_compute; reflexivity)))).
Defined.

(** X6. A card with population 0 scores 0 on population, on density and on
    output per capita, whatever its area and economic output are. *)
Theorem populacao_zero_pontua_zero (f : FichaCidade) :
  populacao f = 0 ->
  pontuar_atributo (calcular_metricas f) ATR_POPULACAO = 0%float /\
  pontuar_atributo (calcular_metricas f) ATR_DENSIDADE = 0%float /\
  pontuar_atributo (calcular_metricas f) ATR_PIB_PC = 0%float.
Proof.
  intros P. split; [|split].
  - unfold pontuar_atributo, valor_atributo_base; simpl. rewrite P.
    vm_compute. reflexivity.
  - rewrite pontuar_atributo_densidade.
    unfold calcular_metricas; simpl. rewrite P.
    replace (double_of_Z 0) with 0%float by (vm_compute; reflexivity).
    destruct (dgt (area_km2 f) 0).
    + rewrite dgt_zero_div. reflexivity.
    + rewrite dgt_irrefl. reflexivity.
  - unfold pontuar_atributo, valor_atributo_base, calcular_metricas; simpl.
    rewrite P. reflexivity.
Qed.

Lemma populacao_zero_pontua_zero_witness :
  pontuar_atributo
    (calcular_metricas (mkFicha "D" "D04" "Deserto" 0 750 3 1 0 0))
    ATR_DENSIDADE = 0%float.
Proof.
  apply (proj1 (proj2 (populacao_zero_pontua_zero
                  (mkFicha "D" "D04" "Deserto" 0 750 3 1 0 0) eq_refl))).
Defined.

Lemma valor_atributo_base_bruto f atr :
  1 <= atr <= 4 ->
  valor_atributo_base (calcular_metricas f) atr = valor_atributo_base f atr.
Proof.
  intros H.
  assert (atr = 1 \/ atr = 2 \/ atr = 3 \/ atr = 4) as [->|[->|[->| ->]]] by lia;
    reflexivity.
Qed.

(** X7. On the four raw attributes (population, area, economic output,
    sights) the comparison does not depend on the derived metrics: computing
    them on both cards leaves the whole result unchanged. *)
Theorem comparar_atributos_brutos (c1 c2 : FichaCidade) (a1 a2 : Z) :
  1 <= a1 <= 4 -> 1 <= a2 <= 4 ->
  comparar (calcular_metricas c1) (calcular_metricas c2) a1 a2
  = comparar c1 c2 a1 a2.
Proof.
  intros H1 H2. unfold comparar.
  assert (D1 : a1 <> ATR_DENSIDADE) by (unfold ATR_DENSIDADE; lia).
  assert (D2 : a2 <> ATR_DENSIDADE) by (unfold ATR_DENSIDADE; lia).
  rewrite !(pontuar_atributo_outros _ _ D1), !(pontuar_atributo_outros _ _ D2).
  rewrite !(valor_atributo_base_bruto _ _ H1), !(valor_atributo_base_bruto _ _ H2).
  reflexivity.
Qed.

Lemma comparar_atributos_brutos_witness :
  comparar (calcular_metricas (mkFicha "A" "A01" "Alfa" 1000000 500 10 30 0 0))
           (calcular_metricas (mkFicha "B" "B02" "Beta" 500000 1000 5 20 0 0))
           1 4
  = comparar (mkFicha "A" "A01" "Alfa" 1000000 500 10 30 0 0)
             (mkFicha "B" "B02" "Beta" 500000 1000 5 20 0 0) 1 4.
Proof. apply comparar_atributos_brutos; lia. Defined.

(** ** Names and menu *)

(** X8. On the six attributes the names are pairwise different and none is
    the placeholder: [nome_atributo] gives ["Desconhecido"] exactly for the
    identifiers outside [1..6]. *)
Theorem nome_atributo_distintos (a b : Z) :
  (nome_atributo a = "Desconhecido"%string <-> atributo_valido a = false) /\
  (atributo_valido a = true -> atributo_valido b = true ->
   nome_atributo a = nome_atributo b -> a = b).
Proof.
  split; [split|].
  - destruct (atributo_valido a) eqn:V; [|reflexivity].
    apply atributo_valido_iff in V.
    assert (a = 1 \/ a = 2 \/ a = 3 \/ a = 4 \/ a = 5 \/ a = 6)
      as [->|[->|[->|[->|[->| ->]]]]] by lia; discriminate.
  - intros V. unfold nome_atributo. fora_do_enum V. reflexivity.
  - intros Va Vb. apply atributo_valido_iff in Va, Vb.
    assert (a = 1 \/ a = 2 \/ a = 3 \/ a = 4 \/ a = 5 \/ a = 6)
      as [->|[->|[->|[->|[->| ->]]]]] by lia;
    assert (b = 1 \/ b = 2 \/ b = 3 \/ b = 4 \/ b = 5 \/ b = 6)
      as [->|[->|[->|[->|[->| ->]]]]] by lia;
    intros E; try reflexivity; discriminate E.
Qed.

Lemma nome_atributo_distintos_witness :
  nome_atributo 9 = "Desconhecido"%string /\ 3 = 3.
Proof.
  split.
  - apply (proj2 (proj1 (nome_atributo_distintos 9 9))). reflexivity.
  - apply (proj2 (nome_atributo_distintos 3 3)); reflexivity.
Defined.

(** X9. The menu agrees with the name table: for every attribute [k] of the
    enumeration, entry [k] of the menu is the digit [k], [" - "] and then
    the name [nome_atributo] gives; the menu has no other numbered entries. *)
Theorem mostrar_menu_nomes (atr : Z) :
  atributo_valido atr = true ->
  String.prefix
    (String (ascii_of_nat (48 + Z.to_nat atr)) (" - " ++ nome_atributo atr))
    (nth (Z.to_nat atr) mostrar_menu EmptyString) = true /\
  List.length mostrar_menu = 7%nat.
Proof.
  intros V. apply atributo_valido_iff in V.
  assert (atr = 1 \/ atr = 2 \/ atr = 3 \/ atr = 4 \/ atr = 5 \/ atr = 6)
    as [->|[->|[->|[->|[->| ->]]]]] by lia; split; reflexivity.
Qed.

Lemma mostrar_menu_nomes_witness :
  String.prefix "5 - Densidade Demográfica"
    (nth 5 mostrar_menu EmptyString) = true /\
  List.length mostrar_menu = 7%nat.
Proof. apply (mostrar_menu_nomes 5). reflexivity. Defined.

(** ** Lines and characters *)

(** X10. [limpar_buffer_stdin] discards exactly the rest of the current line:
    when a newline is pending, the input is the discarded characters, that
    newline, and what is left; when none is, everything is discarded.  What
    is discarded never contains a newline. *)
Theorem limpar_buffer_stdin_spec (s : string) :
  (tem_nova_linha s = true ->
   s = (primeira_linha s ++ String nova_linha (limpar_buffer_stdin s))%string) /\
  (tem_nova_linha s = false ->
   limpar_buffer_stdin s = EmptyString /\ primeira_linha s = s) /\
  tem_nova_linha (primeira_linha s) = false.
Proof.
  induction s as [|c s (IH1 & IH2 & IH3)]; simpl.
  - repeat split; discriminate.
  - destruct (Ascii.eqb c nova_linha) eqn:E; simpl.
    + apply Ascii.eqb_eq in E. subst c.
      split; [reflexivity|]. split; [discriminate|reflexivity].
    + rewrite E; simpl. split; [|split].
      * intros H. rewrite <- (IH1 H). reflexivity.
      * intros H. destruct (IH2 H) as [-> ->]. split; reflexivity.
      * exact IH3.
Qed.

Lemma limpar_buffer_stdin_spec_witness :
  ("12 abc" ++ String nova_linha "34")%string
  = (primeira_linha ("12 abc" ++ String nova_linha "34")
     ++ String nova_linha
          (limpar_buffer_stdin ("12 abc" ++ String nova_linha "34")))%string /\
  limpar_buffer_stdin "12 abc" = EmptyString.
Proof.
  split.
  - apply (proj1 (limpar_buffer_stdin_spec
                    ("12 abc" ++ String nova_linha "34")%string)).
    reflexivity.
  - apply (proj1 (proj2 (limpar_buffer_stdin_spec "12 abc"))). reflexivity.
Defined.

Lemma substring_tudo s : substring 0 (String.length s) s = s.
Proof. induction s as [|c s IH]; simpl; [reflexivity|]. now rewrite IH. Qed.

Lemma substring_parte n :
  forall s, (n <= String.length s)%nat ->
    (substring 0 n s ++ substring n (String.length s - n) s)%string = s /\
    String.length (substring 0 n s) = n.
Proof.
  induction n as [|n IH]; intros s H.
  - rewrite Nat.sub_0_r, substring_tudo.
    destruct s; simpl; split; reflexivity.
  - destruct s as [|c s]; simpl in *; [lia|].
    destruct (IH s ltac:(lia)) as [E L]. rewrite E, L. split; reflexivity.
Qed.

(** X11. [ler_texto], with [n = (int)tam] what [fgets] receives.  When
    [n <= 0] nothing is read, and the buffer is emptied if [tam > 0] and left
    untouched if [tam = 0].  When [n >= 1] at most [n - 1] characters are
    stored and none is lost: a line shorter than [n - 1] is taken whole;
    otherwise exactly [n - 1] characters are taken and the rest of the line
    stays first on standard input; at end of input the text is empty. *)
Theorem ler_texto_spec (buf : string) (tam : Z) (l : string) (rest : Entrada) :
  0 <= tam ->
  (to_int tam <= 0 ->
   forall inp,
     ler_texto buf tam inp = ((if 0 <? tam then EmptyString else buf), inp)) /\
  (forall inp, ler_texto buf 0 inp = (buf, inp)) /\
  (1 <= to_int tam ->
   ler_texto buf tam [] = (EmptyString, []) /\
   Z.of_nat (String.length (fst (ler_texto buf tam (l :: rest))))
   <= to_int tam - 1 /\
   (Z.of_nat (String.length l) < to_int tam - 1 ->
    ler_texto buf tam (l :: rest) = (l, rest)) /\
   (to_int tam - 1 <= Z.of_nat (String.length l) ->
    exists nome r,
      ler_texto buf tam (l :: rest) = (nome, r :: rest) /\
      (nome ++ r)%string = l /\
      Z.of_nat (String.length nome) = to_int tam - 1)).
Proof.
  intros T. split; [|split].
  - intros N inp. unfold ler_texto, fgets_linha.
    destruct (Z.leb_spec (to_int tam) 0); [reflexivity|lia].
  - intros inp. reflexivity.
  - intros N.
    assert (P : (0 <? tam) = true).
    { apply Z.ltb_lt. destruct (Z.eq_dec tam 0) as [->|]; [|lia].
      change (to_int 0) with 0 in N. lia. }
    unfold ler_texto, fgets_linha. rewrite P.
    destruct (Z.leb_spec (to_int tam) 0) as [|_]; [lia|].
    destruct (Z.eqb_spec (to_int tam) 1) as [E|E].
    + rewrite E. simpl. repeat split; try lia.
      intros _. exists EmptyString, l. repeat split.
    + set (k := Z.to_nat (to_int tam - 1)).
      assert (K : Z.of_nat k = to_int tam - 1) by (unfold k; lia).
      split; [reflexivity|].
      destruct (Nat.leb_spec (S (String.length l)) k) as [H|H]; cbn [fst].
      * split; [lia|]. split; [reflexivity|]. intros; lia.
      * destruct (substring_parte k l ltac:(lia)) as [A L].
        rewrite L. split; [lia|]. split; [intros; lia|].
        intros _. eexists; eexists. split; [reflexivity|]. split; [exact A|].
        rewrite L. exact K.
Qed.

Lemma ler_texto_spec_witness :
  ler_texto "velho" 0 ["Alfa"; "1000"]%string
  = ("velho", ["Alfa"; "1000"])%string /\
  ler_texto "velho" 50 ["Alfa"; "1000"]%string = ("Alfa", ["1000"])%string /\
  exists nome r,
    ler_texto "velho" 50 [Exemplo.nome_longo; "1000"%string]
    = (nome, [r; "1000"%string]) /\
    (nome ++ r)%string = Exemplo.nome_longo /\
    Z.of_nat (String.length nome) = to_int 50 - 1.
Proof.
  split; [|split].
  - apply (proj1 (ler_texto_spec "velho" 0 "Alfa" ["1000"%string]
                    ltac:(lia))).
    vm_compute. discriminate.
  - apply (proj2 (proj2 (ler_texto_spec "velho" 50 "Alfa" ["1000"%string]
                           ltac:(lia)))).
    + vm_compute. discriminate.
    + vm_compute. reflexivity.
  - apply (proj2 (proj2 (ler_texto_spec "velho" 50 Exemplo.nome_longo
                           ["1000"%string] ltac:(lia)))).
    + vm_compute. discriminate.
    + vm_compute. discriminate.
Defined.

Lemma pular_espacos_cabeca s c s' :
  pular_espacos s = String c s' -> espaco c = false.
Proof.
  induction s as [|a s IH]; simpl; [discriminate|].
  destruct (espaco a) eqn:E; [exact IH|].
  intros H. injection H as <- _. exact E.
Qed.

Lemma palavra_spec n :
  forall s,
    (String.length (palavra n s) <= n)%nat /\
    (forall c, In c (list_ascii_of_string (palavra n s)) -> espaco c = false).
Proof.
  induction n as [|n IH]; intros s; simpl.
  - split; [simpl; lia|intros c []].
  - destruct s as [|a s]; simpl; [split; [lia|intros c []]|].
    destruct (espaco a) eqn:E; simpl; [split; [lia|intros c []]|].
    destruct (IH s) as [L N]. split; [lia|].
    intros c [<-|H]; [exact E|exact (N c H)].
Qed.

(** X12. [ler_char] never yields a blank character: it is the first
    non-blank character of the input, or ['A'] when only blank lines (or
    nothing) are left, in which case the input is used up. *)
Theorem ler_char_spec (inp : Entrada) :
  espaco (fst (ler_char inp)) = false /\
  (Forall (fun l => em_branco l = true) inp -> ler_char inp = ("A"%char, [])) /\
  (forall brancos l rest c s',
      inp = brancos ++ l :: rest ->
      Forall (fun b => em_branco b = true) brancos ->
      pular_espacos l = String c s' ->
      ler_char inp = (c, rest)).
Proof.
  split; [|split].
  - induction inp as [|l inp IH]; simpl; [reflexivity|].
    destruct (pular_espacos l) as [|c s'] eqn:E; [exact IH|].
    simpl. exact (pular_espacos_cabeca _ _ _ E).
  - induction 1 as [|l inp B _ IH]; simpl; [reflexivity|].
    unfold em_branco in B. destruct (pular_espacos l); [exact IH|discriminate].
  - intros brancos l rest c s' -> B E.
    induction B as [|b brancos Hb _ IH]; simpl.
    + rewrite E. reflexivity.
    + unfold em_branco in Hb.
      destruct (pular_espacos b); [exact IH|discriminate].
Qed.

Lemma ler_char_spec_witness :
  ler_char [""; "   "]%string = ("A"%char, []) /\
  ler_char ["  "; " Bahia"; "x"]%string = ("B"%char, ["x"%string]).
Proof.
  split.
  - apply (proj1 (proj2 (ler_char_spec [""; "   "]%string))).
    repeat constructor.
  - apply (proj2 (proj2 (ler_char_spec ["  "; " Bahia"; "x"]%string))
             ["  "%string] " Bahia"%string ["x"%string] "B"%char "ahia"%string).
    + reflexivity.
    + repeat constructor.
    + reflexivity.
Defined.

(** X13. The card code [ler_ficha] reads always fits its five-byte buffer
    and holds no blank: it has between one and four characters, the first
    non-blank ones of the line, or is ["A01"] when only blank lines (or
    nothing) are left. *)
Theorem ler_codigo_spec (inp : Entrada) :
  (1 <= String.length (fst (ler_codigo inp)) <= 4)%nat /\
  (forall c, In c (list_ascii_of_string (fst (ler_codigo inp))) ->
             espaco c = false) /\
  (Forall (fun l => em_branco l = true) inp ->
   ler_codigo inp = ("A01"%string, [])) /\
  (forall brancos l rest,
      inp = brancos ++ l :: rest ->
      Forall (fun b => em_branco b = true) brancos ->
      em_branco l = false ->
      ler_codigo inp = (palavra 4 (pular_espacos l), rest)).
Proof.
  split; [|split; [|split]].
  - induction inp as [|l inp IH]; simpl; [lia|].
    destruct (pular_espacos l) as [|c s'] eqn:E; [exact IH|].
    cbn [fst]. destruct (palavra_spec 4 (String c s')) as [L _].
    split; [|exact L].
    simpl. rewrite (pular_espacos_cabeca _ _ _ E). simpl. lia.
  - induction inp as [|l inp IH]; simpl.
    + intros c [<-|[<-|[<-|[]]]]; reflexivity.
    + destruct (pular_espacos l) as [|a s'] eqn:E; [exact IH|].
      cbn [fst]. apply (palavra_spec 4 (String a s')).
  - induction 1 as [|l inp B _ IH]; simpl; [reflexivity|].
    unfold em_branco in B. destruct (pular_espacos l); [exact IH|discriminate].
  - intros brancos l rest -> B E.
    induction B as [|b brancos Hb _ IH]; simpl.
    + unfold em_branco in E.
      destruct (pular_espacos l); [discriminate|reflexivity].
    + unfold em_branco in Hb.
      destruct (pular_espacos b); [exact IH|discriminate].
Qed.

Lemma ler_codigo_spec_witness :
  ler_codigo [" "; ""]%string = ("A01"%string, []) /\
  ler_codigo [""; "  SP1234 x"; "y"]%string
  = (palavra 4 (pular_espacos "  SP1234 x"), ["y"%string]).
Proof.
  split.
  - apply (proj1 (proj2 (proj2 (ler_codigo_spec [" "; ""]%string)))).
    repeat constructor.
  - apply (proj2 (proj2 (proj2 (ler_codigo_spec [""; "  SP1234 x"; "y"]%string)))
             [""%string] "  SP1234 x"%string ["y"%string]).
    + reflexivity.
    + repeat constructor.
    + reflexivity.
Defined.

(** ** The retry loops as a whole *)

Lemma ler_ate_converter_carac {A : Type} (scan : string -> option A) inp v rest :
  ler_ate_converter scan inp = Some (v, rest) <->
  exists pre l,
    inp = pre ++ l :: rest /\ Forall (recusada scan) pre /\
    em_branco l = false /\ scan l = Some v.
Proof.
  split.
  - revert v rest. induction inp as [|l inp IH]; simpl; [discriminate|].
    intros v rest.
    destruct (em_branco l) eqn:B.
    + intros H. destruct (IH _ _ H) as (pre & l' & -> & F & R).
      exists (l :: pre), l'. split; [reflexivity|].
      split; [constructor; [left; exact B|exact F]|exact R].
    + destruct (scan l) as [x|] eqn:S.
      * intros H. injection H as <- <-. exists [], l.
        repeat split; [constructor|exact B|exact S].
      * intros H. destruct (IH _ _ H) as (pre & l' & -> & F & R).
        exists (l :: pre), l'. split; [reflexivity|].
        split; [constructor; [right; exact S|exact F]|exact R].
  - intros (pre & l & -> & F & B & S).
    induction F as [|b pre Hb _ IH]; simpl.
    + rewrite B, S. reflexivity.
    + destruct Hb as [Hb|Hb].
      * rewrite Hb. exact IH.
      * rewrite Hb. destruct (em_branco b); exact IH.
Qed.

Lemma ler_ate_converter_nunca {A : Type} (scan : string -> option A) inp :
  ler_ate_converter scan inp = None <-> Forall (recusada scan) inp.
Proof.
  induction inp as [|l inp IH]; simpl.
  - split; [constructor|reflexivity].
  - destruct (em_branco l) eqn:B.
    + rewrite IH. split.
      * intros F. constructor; [left; exact B|exact F].
      * intros F. inversion F; assumption.
    + destruct (scan l) as [x|] eqn:S.
      * split; [discriminate|].
        intros F. inversion F as [|? ? [R|R] ?]; subst; congruence.
      * rewrite IH. split.
        -- intros F. constructor; [right; exact S|exact F].
        -- intros F. inversion F; assumption.
Qed.

Lemma recusada_option_map {A B : Type} (g : A -> B) (scan : string -> option A) l :
  recusada (fun x => option_map g (scan x)) l <-> recusada scan l.
Proof.
  unfold recusada. destruct (scan l); simpl; split; intros [H|H];
    auto; discriminate.
Qed.

Lemma Forall_recusada_option_map {A B : Type} (g : A -> B)
      (scan : string -> option A) inp :
  Forall (recusada (fun x => option_map g (scan x))) inp <->
  Forall (recusada scan) inp.
Proof.
  rewrite !Forall_forall. split; intros H l Hl;
    apply (recusada_option_map g scan); apply H; exact Hl.
Qed.

(** X14. [ler_double] returns the conversion of the first line that is not
    blank and converts: every line before it is blank or fails to convert and
    is thrown away, and the lines after it are left for the next reader. *)
Theorem ler_double_primeira (C : Conversoes) (inp : Entrada) (x : float)
        (rest : Entrada) :
  ler_double inp = Some (x, rest) <->
  exists pre l,
    inp = pre ++ l :: rest /\ Forall (recusada scan_lf) pre /\
    em_branco l = false /\ scan_lf l = Some x.
Proof. apply ler_ate_converter_carac. Qed.

Lemma ler_double_primeira_witness :
  @ler_double Exemplo.conversoes ["abc"; ""; "-"; "7.25 km"; "3"]%string
  = Some (7.25%float, ["3"%string]).
Proof.
  apply (proj2 (ler_double_primeira Exemplo.conversoes
                  ["abc"; ""; "-"; "7.25 km"; "3"]%string 7.25 ["3"%string])).
  exists ["abc"; ""; "-"]%string, "7.25 km"%string.
  split; [reflexivity|]. split.
  - repeat constructor; solve [left; reflexivity | right; reflexivity].
  - split; [reflexivity|vm_compute; reflexivity].
Defined.

(** X15. A numeric reader never returns exactly when every remaining line is
    blank or fails to convert; in particular none returns at end of input. *)
Theorem leitores_nunca_retornam (C : Conversoes) (inp : Entrada) :
  (ler_ulong inp = None <-> Forall (recusada scan_lu) inp) /\
  (ler_double inp = None <-> Forall (recusada scan_lf) inp) /\
  (ler_int inp = None <-> Forall (recusada scan_d) inp) /\
  (ler_ulong [] = None /\ ler_double [] = None /\ ler_int [] = None).
Proof.
  unfold ler_ulong, ler_double, ler_int.
  rewrite !ler_ate_converter_nunca, !Forall_recusada_option_map.
  repeat split; auto.
Qed.

Lemma leitores_nunca_retornam_witness :
  @ler_int Exemplo.conversoes ["abc"; "  "; "x9"]%string = None.
Proof.
  apply (proj2 (proj1 (proj2 (proj2
           (leitores_nunca_retornam Exemplo.conversoes
              ["abc"; "  "; "x9"]%string))))).
  repeat constructor; solve [left; reflexivity | right; reflexivity].
Defined.

Section Selecao.

Context {C : Conversoes}.

Lemma escolha_aceita_ok d l a :
  escolha_aceita d l = Some a ->
  1 <= a <= 6 /\ a <> d /\ option_map to_int (scan_d l) = Some a.
Proof.
  unfold escolha_aceita.
  destruct (option_map to_int (scan_d l)) as [b|]; [|discriminate].
  destruct ((b <? 1) || (b >? 6)) eqn:R; [discriminate|].
  destruct (Z.eqb_spec b d); [discriminate|].
  intros H. injection H as <-.
  apply orb_false_iff in R. destruct R as [R1 R2].
  apply Z.ltb_ge in R1. rewrite Z.gtb_ltb in R2. apply Z.ltb_ge in R2.
  repeat split; try lia.
Qed.

Lemma ler_atributo_distinto_passo inp d :
  ler_atributo_distinto inp d = ler_ate_converter (escolha_aceita d) inp.
Proof.
  induction inp as [|l inp IH].
  - reflexivity.
  - rewrite ler_atributo_distinto_eq.
    assert (E : ler_atributo_distinto inp d =
                match ler_int inp with
                | None => None
                | Some (a, rest) =>
                    if (a <? 1) || (a >? 6) then ler_atributo_distinto rest d
                    else if a =? d then ler_atributo_distinto rest d
                    else Some (a, rest)
                end) by apply ler_atributo_distinto_eq.
    unfold ler_int in *. simpl.
    destruct (em_branco l); [rewrite <- E; exact IH|].
    unfold escolha_aceita.
    destruct (option_map to_int (scan_d l)) as [a|]; [|rewrite <- E; exact IH].
    destruct ((a <? 1) || (a >? 6)); [exact IH|].
    destruct (a =? d); [exact IH|reflexivity].
Qed.

End Selecao.

(** X16. The selection loop and the integer reader inside it act as one
    pass over the lines: [ler_atributo_distinto] returns the first non-blank
    line that converts to an identifier in [1..6] other than the excluded
    one, discarding every line before it, and never returns when no
    remaining line is of that kind. *)
Theorem ler_atributo_distinto_primeira (C : Conversoes) (inp : Entrada) (d : Z) :
  (forall a rest,
      ler_atributo_distinto inp d = Some (a, rest) <->
      exists pre l,
        inp = pre ++ l :: rest /\ Forall (recusada (escolha_aceita d)) pre /\
        em_branco l = false /\ escolha_aceita d l = Some a) /\
  (ler_atributo_distinto inp d = None <->
   Forall (recusada (escolha_aceita d)) inp).
Proof.
  rewrite ler_atributo_distinto_passo. split.
  - intros a rest. apply ler_ate_converter_carac.
  - apply ler_ate_converter_nunca.
Qed.

Lemma ler_atributo_distinto_primeira_witness :
  @ler_atributo_distinto Exemplo.conversoes Exemplo.entrada_escolha 3
  = Some (4, ["2"%string]) /\
  @ler_atributo_distinto Exemplo.conversoes ["0"; "7"; "3"; "x"]%string 3 = None.
Proof.
  split.
  - apply (proj2 (proj1 (ler_atributo_distinto_primeira Exemplo.conversoes
                           Exemplo.entrada_escolha 3) 4 ["2"%string])).
    exists ["abc"; "9"; "3"; ""]%string, "4"%string.
    split; [reflexivity|]. split.
    + repeat constructor; solve [left; reflexivity | right; reflexivity].
    + split; reflexivity.
  - apply (proj2 (proj2 (ler_atributo_distinto_primeira Exemplo.conversoes
                           ["0"; "7"; "3"; "x"]%string 3))).
    repeat constructor; solve [left; reflexivity | right; reflexivity].
Defined.

(** ** Cards as read, and the whole program *)

Lemma ler_char_resto inp :
  (List.length (snd (ler_char inp)) <= List.length inp)%nat.
Proof.
  induction inp as [|l inp IH]; simpl; [lia|].
  destruct (pular_espacos l); simpl; lia.
Qed.

Lemma ler_codigo_resto inp :
  (List.length (snd (ler_codigo inp)) <= List.length inp)%nat.
Proof.
  induction inp as [|l inp IH]; simpl; [lia|].
  destruct (pular_espacos l); simpl; lia.
Qed.


Section FichaLida.

Context {C : Conversoes}.

Lemma ler_ficha_partes inp f rest :
  ler_ficha inp = Some (f, rest) ->
  exists i4 i5 i6,
    estado f = fst (ler_char inp) /\
    codigo f = fst (ler_codigo (snd (ler_char inp))) /\
    cidade f = fst (ler_texto EmptyString 50
                      (snd (ler_codigo (snd (ler_char inp))))) /\
    ler_ulong (snd (ler_texto EmptyString 50
                      (snd (ler_codigo (snd (ler_char inp))))))
    = Some (populacao f, i4) /\
    ler_double i4 = Some (area_km2 f, i5) /\
    ler_double i5 = Some (pib_bilhoes f, i6) /\
    ler_int i6 = Some (pontos_turisticos f, rest) /\
    calcular_metricas f = f.
Proof.
  unfold ler_ficha.
  destruct (ler_char inp) as [e i1]. cbn [fst snd].
  destruct (ler_codigo i1) as [cod i2]. cbn [fst snd].
  destruct (ler_texto EmptyString 50 i2) as [nome i3]. cbn [fst snd].
  intros H.
  apply ligar_some in H. destruct H as (pop & i4 & E1 & H).
  apply ligar_some in H. destruct H as (area & i5 & E2 & H).
  apply ligar_some in H. destruct H as (pib & i6 & E3 & H).
  apply ligar_some in H. destruct H as (pts & i7 & E4 & H).
  injection H as <- <-. simpl.
  exists i4, i5, i6. repeat split; assumption.
Qed.

Lemma ler_ficha_resto inp f rest :
  ler_ficha inp = Some (f, rest) ->
  (List.length rest + 4 <= List.length inp)%nat.
Proof.
  intros H. apply ler_ficha_partes in H.
  destruct H as (i4 & i5 & i6 & _ & _ & _ & E1 & E2 & E3 & E4 & _).
  apply ler_ate_converter_resto in E1, E2, E3, E4.
  pose proof (ler_char_resto inp).
  pose proof (ler_codigo_resto (snd (ler_char inp))).
  pose proof (ler_texto_resto EmptyString 50
                (snd (ler_codigo (snd (ler_char inp))))).
  lia.
Qed.

End FichaLida.

(** X17. Every card [ler_ficha] returns fits the buffers of [FichaCidade]
    and is consistent: the state is not a blank character, the code has one
    to four characters, the city name at most 49, and the two derived fields
    are the metrics of the raw fields (computing them again changes
    nothing). *)
Theorem ler_ficha_invariantes (C : Conversoes) (inp : Entrada)
        (f : FichaCidade) (rest : Entrada) :
  ler_ficha inp = Some (f, rest) ->
  espaco (estado f) = false /\
  (1 <= String.length (codigo f) <= 4)%nat /\
  (String.length (cidade f) <= 49)%nat /\
  calcular_metricas f = f.
Proof.
  intros H. apply ler_ficha_partes in H.
  destruct H as (i4 & i5 & i6 & -> & -> & -> & _ & _ & _ & _ & K).
  split; [|split; [|split]].
  - induction inp as [|l inp IH]; simpl; [reflexivity|].
    destruct (pular_espacos l) as [|c s'] eqn:E; [exact IH|].
    exact (pular_espacos_cabeca _ _ _ E).
  - generalize (snd (ler_char inp)). intros i1.
    induction i1 as [|l i1 IH]; simpl; [lia|].
    destruct (pular_espacos l) as [|c s'] eqn:E; [exact IH|].
    cbn [fst]. destruct (palavra_spec 4 (String c s')) as [L _].
    split; [|exact L].
    simpl. rewrite (pular_espacos_cabeca _ _ _ E). simpl. lia.
  - generalize (snd (ler_codigo (snd (ler_char inp)))). intros i2.
    rewrite ler_texto_50. destruct i2 as [|l i2]; [simpl; lia|].
    destruct (Nat.leb_spec (S (String.length l)) 49) as [L|L];
      cbn [fst]; [lia|].
    destruct (substring_parte 49 l ltac:(lia)) as [_ E]. rewrite E. lia.
  - exact K.
Qed.

Lemma ler_ficha_invariantes_witness :
  espaco "C" = false /\
  (1 <= String.length "C03" <= 4)%nat /\
  (String.length "Atlantida" <= 49)%nat /\
  calcular_metricas
    (calcular_metricas (mkFicha "C" "C03" "Atlantida" 1000 (-5.5) 10 (-3) 0 0))
  = calcular_metricas (mkFicha "C" "C03" "Atlantida" 1000 (-5.5) 10 (-3) 0 0).
Proof.
  apply (ler_ficha_invariantes Exemplo.conversoes Exemplo.entrada_negativa
           (calcular_metricas
              (mkFicha "C" "C03" "Atlantida" 1000 (-5.5) 10 (-3) 0 0)) []).
  vm_compute. reflexivity.
Defined.

(** X18. [ler_ficha] returns only after using up at least four lines, one
    for each numeric field; with fewer than four lines left it never
    returns. *)
Theorem ler_ficha_consome (C : Conversoes) (inp : Entrada) :
  (forall f rest,
      ler_ficha inp = Some (f, rest) ->
      (List.length rest + 4 <= List.length inp)%nat) /\
  ((List.length inp < 4)%nat -> ler_ficha inp = None).
Proof.
  split.
  - intros f rest. apply ler_ficha_resto.
  - intros L. destruct (ler_ficha inp) as [[f rest]|] eqn:E; [|reflexivity].
    apply ler_ficha_resto in E. lia.
Qed.

Lemma ler_ficha_consome_witness :
  (0 + 4 <= 7)%nat /\
  @ler_ficha Exemplo.conversoes ["A"; "A01"; "Alfa"]%string = None.
Proof.
  split.
  - apply (proj1 (ler_ficha_consome Exemplo.conversoes Exemplo.entrada_negativa)
             (calcular_metricas
                (mkFicha "C" "C03" "Atlantida" 1000 (-5.5) 10 (-3) 0 0)) []).
    vm_compute. reflexivity.
  - apply (proj2 (ler_ficha_consome Exemplo.conversoes
                    ["A"; "A01"; "Alfa"]%string)).
    simpl. lia.
Defined.

(** X19. Whenever [main] gets to its result, both cards carry the metrics of
    their own raw fields, the result is the comparison of exactly those two
    cards on the two chosen attributes, and at least ten input lines were
    read; with fewer than ten lines the program never gets there. *)
Theorem main_resultado (C : Conversoes) (inp : Entrada) :
  (forall p,
      main inp = Some p ->
      calcular_metricas (carta1 p) = carta1 p /\
      calcular_metricas (carta2 p) = carta2 p /\
      resultado p = comparar (carta1 p) (carta2 p) (atr1 p) (atr2 p) /\
      (10 <= List.length inp)%nat) /\
  ((List.length inp < 10)%nat -> main inp = None).
Proof.
  assert (K : forall p, main inp = Some p ->
      calcular_metricas (carta1 p) = carta1 p /\
      calcular_metricas (carta2 p) = carta2 p /\
      resultado p = comparar (carta1 p) (carta2 p) (atr1 p) (atr2 p) /\
      (10 <= List.length inp)%nat).
  { intros p H. apply main_some in H.
    destruct H as (i1 & i2 & i3 & i4 & F1 & F2 & A1 & A2 & R).
    pose proof (ler_ficha_resto _ _ _ F1).
    pose proof (ler_ficha_resto _ _ _ F2).
    apply ler_ficha_partes in F1. destruct F1 as (? & ? & ? & F1).
    apply ler_ficha_partes in F2. destruct F2 as (? & ? & ? & F2).
    apply ler_atributo_distinto_laco_ok in A1, A2.
    repeat split; try tauto. lia. }
  split; [exact K|].
  intros L. destruct (main inp) as [p|] eqn:E; [|reflexivity].
  destruct (K p eq_refl) as (_ & _ & _ & H). lia.
Qed.

Lemma main_resultado_witness :
  resultado (mkPartida Exemplo.carta_a Exemplo.carta_b 5 6
               (comparar Exemplo.carta_a Exemplo.carta_b 5 6))
  = comparar Exemplo.carta_a Exemplo.carta_b 5 6 /\
  @main Exemplo.conversoes
    ["A"; "A01"; "Alfa"; "1000000"; "500"; "10"; "30"; "B"; "B02"]%string = None.
Proof.
  split.
  - apply (proj1 (main_resultado Exemplo.conversoes Exemplo.entrada_partida)
             (mkPartida Exemplo.carta_a Exemplo.carta_b 5 6
                (comparar Exemplo.carta_a Exemplo.carta_b 5 6))).
    vm_compute. reflexivity.
  - apply (proj2 (main_resultado Exemplo.conversoes
             ["A"; "A01"; "Alfa"; "1000000"; "500"; "10"; "30"; "B"; "B02"]%string)).
    simpl. lia.
Defined.

(** ** Order of the two attributes *)

Lemma SFadd_comm p e x y : SFadd p e x y = SFadd p e y x.
Proof.
  destruct x as [sx|sx| |sx mx ex], y as [sy|sy| |sy my ey];
    simpl; try reflexivity; try (destruct sx, sy; reflexivity).
  rewrite (Z.min_comm ey ex), Z.add_comm. reflexivity.
Qed.

Lemma dadd_comm (x y : float) : (x + y)%float = (y + x)%float.
Proof.
  apply Prim2SF_inj. rewrite !add_spec. apply SFadd_comm.
Qed.

(** X20. The order in which the two attributes are chosen does not matter
    for the verdict: exchanging them leaves both aggregate scores and the
    outcome unchanged (only the two displayed base-value pairs trade
    places). *)
Theorem comparar_ordem_atributos (c1 c2 : FichaCidade) (a1 a2 : Z) :
  c1_score (comparar c1 c2 a2 a1) = c1_score (comparar c1 c2 a1 a2) /\
  c2_score (comparar c1 c2 a2 a1) = c2_score (comparar c1 c2 a1 a2) /\
  desfecho (comparar c1 c2 a2 a1) = desfecho (comparar c1 c2 a1 a2) /\
  c1_v1_base (comparar c1 c2 a2 a1) = c1_v2_base (comparar c1 c2 a1 a2) /\
  c2_v1_base (comparar c1 c2 a2 a1) = c2_v2_base (comparar c1 c2 a1 a2).
Proof.
  unfold comparar; simpl.
  rewrite (dadd_comm (pontuar_atributo c1 a2)),
          (dadd_comm (pontuar_atributo c2 a2)).
  repeat split.
Qed.

(** ** The excluded identifier *)

Lemma ler_ate_converter_ext {A : Type} (f g : string -> option A) inp :
  (forall l, f l = g l) -> ler_ate_converter f inp = ler_ate_converter g inp.
Proof.
  intros E. induction inp as [|l inp IH]; simpl; [reflexivity|].
  rewrite E, IH. reflexivity.
Qed.

(** X21. Excluding an identifier outside [1..6] excludes nothing: the loop
    then returns the first identifier in range, as it does for the first
    choice of [main], where the excluded value is 0. *)
Theorem ler_atributo_distinto_sem_exclusao (C : Conversoes) (inp : Entrada)
        (d : Z) :
  atributo_valido d = false ->
  ler_atributo_distinto inp d = ler_atributo_distinto inp 0.
Proof.
  intros V. rewrite !ler_atributo_distinto_passo.
  apply ler_ate_converter_ext. intros l. unfold escolha_aceita.
  destruct (option_map to_int (scan_d l)) as [a|]; [|reflexivity].
  destruct ((a <? 1) || (a >? 6)) eqn:R; [reflexivity|].
  apply orb_false_iff in R. destruct R as [R1 R2].
  apply Z.ltb_ge in R1. rewrite Z.gtb_ltb in R2. apply Z.ltb_ge in R2.
  apply not_true_iff_false in V. rewrite atributo_valido_iff in V.
  destruct (Z.eqb_spec a d); [lia|].
  destruct (Z.eqb_spec a 0); [lia|reflexivity].
Qed.

Lemma ler_atributo_distinto_sem_exclusao_witness :
  @ler_atributo_distinto Exemplo.conversoes Exemplo.entrada_escolha 9
  = @ler_atributo_distinto Exemplo.conversoes Exemplo.entrada_escolha 0.
Proof.
  apply (ler_atributo_distinto_sem_exclusao Exemplo.conversoes). reflexivity.
Defined.

(** ** A city name that does not fit *)

Lemma ler_char_linha e r :
  em_branco e = false -> snd (ler_char (e :: r)) = r.
Proof.
  unfold em_branco. simpl. destruct (pular_espacos e); [discriminate|].
  reflexivity.
Qed.

Lemma ler_codigo_linha e r :
  em_branco e = false -> snd (ler_codigo (e :: r)) = r.
Proof.
  unfold em_branco. simpl. destruct (pular_espacos e); [discriminate|].
  reflexivity.
Qed.

(** X22. A city line of 49 characters or more is cut at 49 and its tail is
    not discarded: when that tail converts as an unsigned number it becomes
    the population, without the user being asked for one. *)
Theorem ler_ficha_nome_transborda (C : Conversoes) (e cod l : string)
        (rest : Entrada) (n : Z) (f : FichaCidade) (rest' : Entrada) :
  em_branco e = false -> em_branco cod = false ->
  (49 <= String.length l)%nat ->
  em_branco (substring 49 (String.length l - 49) l) = false ->
  scan_lu (substring 49 (String.length l - 49) l) = Some n ->
  ler_ficha (e :: cod :: l :: rest) = Some (f, rest') ->
  cidade f = substring 0 49 l /\ populacao f = to_ulong n /\
  exists i5 i6,
    ler_double rest = Some (area_km2 f, i5) /\
    ler_double i5 = Some (pib_bilhoes f, i6) /\
    ler_int i6 = Some (pontos_turisticos f, rest').
Proof.
  intros Be Bc L Br Sn H. apply ler_ficha_partes in H.
  destruct H as (i4 & i5 & i6 & _ & _ & Hn & Hp & Ha & Hg & Ht & _).
  rewrite (ler_char_linha _ _ Be), (ler_codigo_linha _ _ Bc) in Hn, Hp.
  rewrite ler_texto_50 in Hn, Hp.
  destruct (Nat.leb_spec (S (String.length l)) 49) as [K|K]; [lia|].
  cbn [fst snd] in Hn, Hp.
  unfold ler_ulong in Hp.
  rewrite (ler_ate_converter_aceita _ _ _ (to_ulong n) Br) in Hp
    by (rewrite Sn; reflexivity).
  injection Hp as <- <-.
  split; [exact Hn|]. split; [reflexivity|].
  exists i5, i6. repeat split; assumption.
Qed.

Lemma ler_ficha_nome_transborda_witness :
  cidade (calcular_metricas
            (mkFicha "A" "A01" "Sao Jose do Vale do Rio Preto da Serra do Norte-X"
                     77 500 10 30 0 0))
  = substring 0 49 "Sao Jose do Vale do Rio Preto da Serra do Norte-X77" /\
  populacao (calcular_metricas
            (mkFicha "A" "A01" "Sao Jose do Vale do Rio Preto da Serra do Norte-X"
                     77 500 10 30 0 0))
  = to_ulong 77.
Proof.
  destruct (ler_ficha_nome_transborda Exemplo.conversoes
              "A" "A01" "Sao Jose do Vale do Rio Preto da Serra do Norte-X77"
              ["500"; "10"; "30"]%string 77
              (calcular_metricas
                 (mkFicha "A" "A01"
                    "Sao Jose do Vale do Rio Preto da Serra do Norte-X"
                    77 500 10 30 0 0)) [])
    as (H1 & H2 & _).
  - reflexivity.
  - reflexivity.
  - simpl. lia.
  - reflexivity.
  - vm_compute. reflexivity.
  - vm_compute. reflexivity.
  - split; assumption.
Defined.

(** ** The numeric fields of a card, and a repeated attribute *)

Lemma ler_ate_converter_primeira {A : Type} (scan : string -> option A)
      inp v rest :
  ler_ate_converter scan inp = Some (v, rest) <->
  primeira_conversao scan inp v rest.
Proof. apply ler_ate_converter_carac. Qed.

Lemma ler_ate_converter_map {A B : Type} (g : A -> B)
      (scan : string -> option A) inp v rest :
  ler_ate_converter (fun x => option_map g (scan x)) inp = Some (v, rest) <->
  exists n, primeira_conversao scan inp n rest /\ v = g n.
Proof.
  rewrite ler_ate_converter_carac. unfold primeira_conversao. split.
  - intros (pre & l & E & F & B0 & S).
    destruct (scan l) as [n|] eqn:Sn; simpl in S; [|discriminate].
    injection S as <-. exists n. split; [|reflexivity].
    exists pre, l. repeat split; try assumption.
    apply (Forall_recusada_option_map g scan). exact F.
  - intros (n & (pre & l & E & F & B0 & S) & ->).
    exists pre, l. repeat split; try assumption.
    + apply (Forall_recusada_option_map g scan). exact F.
    + rewrite S. reflexivity.
Qed.

(** C9, as the code has it.  A card is handed to the metric calculation
    exactly when each of its four numeric fields has found a line that
    converts, the lines before that one being blank or failing to convert
    and being passed over.  The area and the economic output are the values
    converted, whatever their sign; the population is the converted value
    brought into [0, 2^64) and the number of sights the converted value
    brought into the range of [int], which includes negatives.  No reader
    compares a value with zero. *)
Theorem ler_ficha_campos (C : Conversoes) (inp : Entrada) :
  (forall f rest,
      ler_ficha inp = Some (f, rest) ->
      exists np nt i4 i5 i6,
        primeira_conversao scan_lu (apos_textos inp) np i4 /\
        populacao f = to_ulong np /\
        0 <= populacao f < ULONG_MODULUS /\
        primeira_conversao scan_lf i4 (area_km2 f) i5 /\
        primeira_conversao scan_lf i5 (pib_bilhoes f) i6 /\
        primeira_conversao scan_d i6 nt rest /\
        pontos_turisticos f = to_int nt /\
        INT_MIN <= pontos_turisticos f <= INT_MAX) /\
  (forall np area pib nt i4 i5 i6 rest,
      primeira_conversao scan_lu (apos_textos inp) np i4 ->
      primeira_conversao scan_lf i4 area i5 ->
      primeira_conversao scan_lf i5 pib i6 ->
      primeira_conversao scan_d i6 nt rest ->
      exists f,
        ler_ficha inp = Some (f, rest) /\
        populacao f = to_ulong np /\ area_km2 f = area /\
        pib_bilhoes f = pib /\ pontos_turisticos f = to_int nt).
Proof.
  split.
  - intros f rest H. apply ler_ficha_partes in H.
    destruct H as (i4 & i5 & i6 & _ & _ & _ & Hp & Ha & Hg & Ht & _).
    fold (apos_textos inp) in Hp.
    unfold ler_ulong in Hp. apply ler_ate_converter_map in Hp.
    destruct Hp as (np & Hp & Ep).
    unfold ler_int in Ht. apply ler_ate_converter_map in Ht.
    destruct Ht as (nt & Ht & Et).
    apply ler_ate_converter_primeira in Ha, Hg.
    exists np, nt, i4, i5, i6.
    repeat split; try assumption.
    + rewrite Ep. apply to_ulong_range.
    + rewrite Ep. apply to_ulong_range.
    + rewrite Et. apply to_int_range.
    + rewrite Et. apply to_int_range.
  - intros np area pib nt i4 i5 i6 rest Hp Ha Hg Ht.
    assert (Ep : ler_ulong (apos_textos inp) = Some (to_ulong np, i4)).
    { unfold ler_ulong. apply ler_ate_converter_map. exists np. tauto. }
    assert (Et : ler_int i6 = Some (to_int nt, rest)).
    { unfold ler_int. apply ler_ate_converter_map. exists nt. tauto. }
    assert (Ea : ler_double i4 = Some (area, i5)).
    { unfold ler_double. apply ler_ate_converter_primeira. exact Ha. }
    assert (Eg : ler_double i5 = Some (pib, i6)).
    { unfold ler_double. apply ler_ate_converter_primeira. exact Hg. }
    unfold ler_ficha. unfold apos_textos in Ep.
    destruct (ler_char inp) as [e i1]. cbn [fst snd] in Ep.
    destruct (ler_codigo i1) as [cod i2]. cbn [fst snd] in Ep.
    destruct (ler_texto EmptyString 50 i2) as [nome i3]. cbn [fst snd] in Ep.
    rewrite Ep. cbn [ligar]. rewrite Ea. cbn [ligar].
    rewrite Eg. cbn [ligar]. rewrite Et. cbn [ligar].
    eexists. split; [reflexivity|]. repeat split.
Qed.

Lemma ler_ficha_campos_witness :
  (exists np nt i4 i5 i6,
      primeira_conversao (@scan_lu Exemplo.conversoes)
        (apos_textos Exemplo.entrada_negativa) np i4 /\
      populacao (calcular_metricas
        (mkFicha "C" "C03" "Atlantida" 1000 (-5.5) 10 (-3) 0 0)) = to_ulong np /\
      0 <= populacao (calcular_metricas
        (mkFicha "C" "C03" "Atlantida" 1000 (-5.5) 10 (-3) 0 0)) < ULONG_MODULUS /\
      primeira_conversao (@scan_lf Exemplo.conversoes) i4
        (area_km2 (calcular_metricas
           (mkFicha "C" "C03" "Atlantida" 1000 (-5.5) 10 (-3) 0 0))) i5 /\
      primeira_conversao (@scan_lf Exemplo.conversoes) i5
        (pib_bilhoes (calcular_metricas
           (mkFicha "C" "C03" "Atlantida" 1000 (-5.5) 10 (-3) 0 0))) i6 /\
      primeira_conversao (@scan_d Exemplo.conversoes) i6 nt [] /\
      pontos_turisticos (calcular_metricas
        (mkFicha "C" "C03" "Atlantida" 1000 (-5.5) 10 (-3) 0 0)) = to_int nt /\
      INT_MIN <= pontos_turisticos (calcular_metricas
        (mkFicha "C" "C03" "Atlantida" 1000 (-5.5) 10 (-3) 0 0)) <= INT_MAX) /\
  (exists f,
      @ler_ficha Exemplo.conversoes Exemplo.entrada_negativa = Some (f, []) /\
      populacao f = to_ulong 1000 /\ area_km2 f = (-5.5)%float /\
      pib_bilhoes f = 10%float /\ pontos_turisticos f = to_int (-3)).
Proof.
  split.
  - apply (proj1 (ler_ficha_campos Exemplo.conversoes Exemplo.entrada_negativa)
             (calcular_metricas
                (mkFicha "C" "C03" "Atlantida" 1000 (-5.5) 10 (-3) 0 0)) []).
    vm_compute. reflexivity.
  - apply (proj2 (ler_ficha_campos Exemplo.conversoes Exemplo.entrada_negativa)
             1000 (-5.5)%float 10%float (-3)
             ["-5.5"; "10"; "-3"]%string ["10"; "-3"]%string ["-3"%string] []).
    + exists [], "1000"%string.
      split; [reflexivity|]. split; [constructor|]. split; reflexivity.
    + exists [], "-5.5"%string.
      split; [reflexivity|]. split; [constructor|].
      split; [reflexivity|vm_compute; reflexivity].
    + exists [], "10"%string.
      split; [reflexivity|]. split; [constructor|].
      split; [reflexivity|vm_compute; reflexivity].
    + exists [], "-3"%string.
      split; [reflexivity|]. split; [constructor|]. split; reflexivity.
Defined.

Section Repetido.

Context {C : Conversoes}.



End Repetido.



